(** * aqpMcp: run orchestration, message reconciliation and token cache

    A shallow embedding of the TypeScript sources

    - [utils/agent.ts]   ([AgentService.appendAndRun]),
    - [index.ts]         ([pickCreatedMs], [byCreatedAsc], the
                          [/node/agent/messages] handler),
    - [utils/auth.ts]    ([getToken]),

    together with the properties the specification states about them.

    Conventions of the embedding.

    - JavaScript numbers are embedded as [Z]: the values that occur are
      timestamps, durations and counts, all integers well inside the range
      where double arithmetic is exact.  Fractions, [NaN] and the
      infinities are outside the embedding.
    - Strings are sequences of 8-bit code units.
    - A JavaScript object used as a record of unknown shape ([any]) is a
      finite map from property names to values.
    - Every effect is explicit.  [Date.now()] reads the next value of a clock
      oracle, a remote call consults a scripted double of the remote service
      and is counted, [setTimeout] is counted.  An [await] that rejects and a
      [throw] are the [Throw] outcome.
    - The [while] loop of [appendAndRun] is bounded by a fuel argument;
      running out of fuel is the [OutOfFuel] outcome and is never confused
      with a result. *)

From Stdlib Require Import ZArith String Ascii List Lia Bool Sorted Permutation.
From Stdlib Require Import OrdersEx.
From stdpp Require Import base option list gmap strings pretty.

Local Open Scope string_scope.
Local Open Scope Z_scope.

(** ** Outcomes, and the state-and-exception monad of an async function *)

(** What a JavaScript computation can raise: an [Error] object built by the
    code itself, or the rejection of a remote call. *)
Inductive Thrown : Type :=
| JsError (message : string)
| Rejection (reason : string).

Inductive Outcome (A : Type) : Type :=
| Return (a : A)
| Throw (e : Thrown)
| OutOfFuel.
Arguments Return {A} a.
Arguments Throw {A} e.
Arguments OutOfFuel {A}.

(** The settled value of a promise handed back by a remote service. *)
Inductive Reply (A : Type) : Type :=
| Resolved (a : A)
| Rejected (reason : string).
Arguments Resolved {A} a.
Arguments Rejected {A} reason.

Section Monad.
Context {S : Type}.

Definition M (A : Type) : Type := S -> Outcome A * S.

Definition ret {A} (a : A) : M A := fun st => (Return a, st).
Definition throw {A} (e : Thrown) : M A := fun st => (Throw e, st).
Definition diverge {A} : M A := fun st => (OutOfFuel, st).

Definition bind {A B} (m : M A) (k : A -> M B) : M B :=
  fun st =>
    match m st with
    | (Return a, st') => k a st'
    | (Throw e, st') => (Throw e, st')
    | (OutOfFuel, st') => (OutOfFuel, st')
    end.

(** [try { body } catch { handler }] *)
Definition tryCatch {A} (body : M A) (handler : Thrown -> M A) : M A :=
  fun st =>
    match body st with
    | (Throw e, st') => handler e st'
    | r => r
    end.
End Monad.
Arguments M : clear implicits.

Declare Scope js_scope.
Delimit Scope js_scope with js.
Notation "x <~ m ;; k" := (bind m (fun x => k))
  (at level 100, m at next level, right associativity) : js_scope.
Notation "m ;;; k" := (bind m (fun _ => k))
  (at level 100, right associativity) : js_scope.
Local Open Scope js_scope.

(** ** JavaScript values *)

Module Js.

(** The values a property of a message or of a request body may hold.
    [VDate t] is a [Date] object with time value [t] ([None] for an invalid
    date). *)
Inductive Value : Type :=
| VUndefined
| VNull
| VBool (b : bool)
| VNumber (n : Z)
| VString (s : string)
| VDate (t : option Z).

#[global] Instance Value_eq_dec : EqDecision Value.
Proof. solve_decision. Defined.

(** An object of type [any]: property name to value. *)
Abbreviation Object := (gmap string Value).

(** [o?.[k]]; an absent property reads as [undefined]. *)
Definition get (o : Object) (k : string) : Value :=
  default VUndefined (o !! k).

(** [v == null] *)
Definition isNullish (v : Value) : bool :=
  match v with VUndefined | VNull => true | _ => false end.

(** [a ?? b] *)
Definition coalesce (a b : Value) : Value := if isNullish a then b else a.

(** [!!v] *)
Definition truthy (v : Value) : bool :=
  match v with
  | VUndefined | VNull => false
  | VBool b => b
  | VNumber n => negb (n =? 0)
  | VString s => negb (String.eqb s "")
  | VDate _ => true
  end.

(** [typeof v === "number"] *)
Definition isNumber (v : Value) : bool :=
  match v with VNumber _ => true | _ => false end.

(** The largest time value a [Date] can hold (ECMAScript TimeClip). *)
Definition maxTime : Z := 8640000000000000.

Definition timeClip (t : Z) : option Z :=
  if Z.abs t <=? maxTime then Some t else None.

(** The white space and line terminator code units that
    [String.prototype.trim] strips, as far as a string of 8-bit code
    units can hold them: TAB, LF, VT, FF, CR, SPACE and NBSP. *)
Definition isWhiteSpace (c : ascii) : bool :=
  match N_of_ascii c with
  | 9 | 10 | 11 | 12 | 13 | 32 | 160 => true
  | _ => false
  end%N.

Fixpoint trimStart (s : string) : string :=
  match s with
  | EmptyString => EmptyString
  | String c s' => if isWhiteSpace c then trimStart s' else s
  end.

Definition trimEnd (s : string) : string :=
  String.rev (trimStart (String.rev s)).

(** [s.trim()] *)
Definition trim (s : string) : string := trimEnd (trimStart s).

(** Every code unit of [s] is white space (in particular [s] is empty). *)
Fixpoint blank (s : string) : bool :=
  match s with
  | EmptyString => true
  | String c s' => isWhiteSpace c && blank s'
  end.

End Js.

(** ** The clock and the call counters *)

(** What an invocation has done so far: how many times it read the clock,
    and how many calls of each kind it issued.  The [k]-th call of a kind
    (counting from 0) is answered by the [k]-th entry of the double's script
    for that kind. *)
Record Calls : Type := {
  nows : nat;      (* Date.now() *)
  appends : nat;   (* client.agents.messages.create *)
  creates : nat;   (* client.agents.runs.create *)
  gets : nat;      (* client.agents.runs.get *)
  sleeps : nat     (* setTimeout(r, pollMs) *)
}.

Definition noCalls : Calls :=
  {| nows := 0; appends := 0; creates := 0; gets := 0; sleeps := 0 |}.

(** [Date.now()]: the [k]-th read returns [clock k]. *)
Definition Date_now (clock : nat -> Z) : M Calls Z :=
  fun st =>
    (Return (clock (nows st)),
     {| nows := S (nows st); appends := appends st; creates := creates st;
        gets := gets st; sleeps := sleeps st |}).

(** [await] of a settled promise. *)
Definition await {S A} (r : Reply A) : M S A :=
  match r with
  | Resolved a => ret a
  | Rejected reason => throw (Rejection reason)
  end.

(** [await Promise.all([p1, p2])] of two calls that have both been issued:
    the pair of their values when both resolve; the rejection when one
    rejects; and when both reject, the rejection that settles first,
    [firstWins] telling whether that is the one of [p1]. *)
Definition awaitBoth {S A B} (firstWins : bool) (p1 : Reply A) (p2 : Reply B)
  : M S (A * B) :=
  match p1, p2 with
  | Resolved a, Resolved b => ret (a, b)
  | Rejected reason, Resolved _ => throw (Rejection reason)
  | Resolved _, Rejected reason => throw (Rejection reason)
  | Rejected reason1, Rejected reason2 =>
      throw (Rejection (if firstWins then reason1 else reason2))
  end.

(** ** utils/agent.ts: the run orchestrator *)

Module Agent.

(** The part of a remote run object the orchestrator reads.  [lastError] is
    held in its [JSON.stringify] form. *)
Record Run : Type := {
  id : string;
  status : string;
  lastError : string
}.

(** A double of the remote agent API ([this.client.agents]).  Each script
    takes the index of the call and the arguments of the call. *)
Record Client : Type := {
  messages_create : nat -> string -> string -> string -> Reply unit;
  runs_create : nat -> string -> string -> Reply Run;
  runs_get : nat -> string -> string -> Reply Run
}.

(** What [appendAndRun] resolves to: [{ runId, status }] (the field
    [status] is [resultStatus] here, [status] being the field of [Run]). *)
Record RunResult : Type := {
  runId : string;
  resultStatus : string
}.

Section Service.
Variable clock : nat -> Z.
Variable client : Client.
(** [this.agentId] *)
Variable agentId : string.

Definition call_messages_create (threadId role content : string) : M Calls unit :=
  fun st =>
    await (messages_create client (appends st) threadId role content)
      {| nows := nows st; appends := S (appends st); creates := creates st;
         gets := gets st; sleeps := sleeps st |}.

Definition call_runs_create (threadId agent : string) : M Calls Run :=
  fun st =>
    await (runs_create client (creates st) threadId agent)
      {| nows := nows st; appends := appends st; creates := S (creates st);
         gets := gets st; sleeps := sleeps st |}.

Definition call_runs_get (threadId run : string) : M Calls Run :=
  fun st =>
    await (runs_get client (gets st) threadId run)
      {| nows := nows st; appends := appends st; creates := creates st;
         gets := S (gets st); sleeps := sleeps st |}.

(** [await new Promise(r => setTimeout(r, pollMs))] *)
Definition sleep (pollMs : Z) : M Calls unit :=
  fun st =>
    (Return tt,
     {| nows := nows st; appends := appends st; creates := creates st;
        gets := gets st; sleeps := S (sleeps st) |}).

(** [cur.status === "queued" || cur.status === "in_progress"] *)
Definition pending (cur : Run) : bool :=
  String.eqb (status cur) "queued" || String.eqb (status cur) "in_progress".

(** The [while] loop of [appendAndRun].  The clock is read only when the
    status is still pending ([&&] short-circuits).  One unit of fuel pays for
    one iteration of the body. *)
Fixpoint poll (fuel : nat) (threadId run : string) (pollMs end_ : Z) (cur : Run)
  {struct fuel} : M Calls Run :=
  if pending cur then
    now <~ Date_now clock ;;
    if now <? end_ then
      match fuel with
      | O => diverge
      | S fuel' =>
          sleep pollMs ;;;
          cur' <~ call_runs_get threadId run ;;
          poll fuel' threadId run pollMs end_ cur'
      end
    else ret cur
  else ret cur.

(** [appendAndRun(threadId, message, pollMs = 1000, timeoutMs = 120_000)];
    an omitted argument is [None]. *)
Definition appendAndRun (fuel : nat) (threadId message : string)
  (pollMs timeoutMs : option Z) : M Calls RunResult :=
  let pollMs := default 1000 pollMs in
  let timeoutMs := default 120000 timeoutMs in
  if String.eqb (Js.trim message) "" then throw (JsError "message is empty")
  else
    call_messages_create threadId "user" message ;;;
    run <~ call_runs_create threadId agentId ;;
    now <~ Date_now clock ;;
    let end_ := now + timeoutMs in
    cur <~ call_runs_get threadId (id run) ;;
    cur <~ poll fuel threadId (id run) pollMs end_ cur ;;
    if String.eqb (status cur) "failed"
    then throw (JsError ("run failed: " +:+ lastError cur))
    else ret {| runId := id cur; resultStatus := status cur |}.

End Service.

(** The error the specification calls [InvalidArgument]. *)
Definition InvalidArgument : Thrown := JsError "message is empty".

End Agent.

(** ** index.ts: the message reconciler *)

Module Reconciler.
Import Js.

(** [const CREATED_KEYS] of [pickCreatedMs] *)
Definition CREATED_KEYS : list string :=
  ["created_at"; "createdAt"; "created"; "createTime"; "timestamp"].

(** [Array.prototype.slice(start)] with one argument: a negative [start]
    counts from the end, and both ends are clamped to the array. *)
Definition slice {A} (start : Z) (l : list A) : list A :=
  let len := Z.of_nat (length l) in
  let k := if start <? 0 then Z.max (len + start) 0 else Z.min start len in
  drop (Z.to_nat k) l.

Section Sort.
Context {St A : Type}.
Variable comparefn : A -> A -> M St Z.

(** [Array.prototype.sort(comparefn)].  ECMAScript fixes the result only up
    to this: the sort is stable, and the result is sorted whenever
    [comparefn] is a consistent comparator; otherwise the order is left to
    the engine.  The engine's algorithm is modelled by the stable insertion
    sort: each element, from the last to the first, is put in front of the
    first element of the sorted rest that it does not exceed.
    [comparefn x y] is run once per comparison, with its effects; which
    comparisons are made, and so how often the clock is read, is the
    model's choice, not the engine's.  For a
    consistent comparator the choice of the algorithm does not matter: the
    sorted and stable arrangement of a list is unique
    ([SortFacts.sort_unique]). *)
Fixpoint insert (x : A) (sorted : list A) : M St (list A) :=
  match sorted with
  | [] => ret [x]
  | y :: rest =>
      c <~ comparefn x y ;;
      if c <=? 0 then ret (x :: y :: rest)
      else (rest' <~ insert x rest ;; ret (y :: rest'))
  end.

Fixpoint sort (l : list A) : M St (list A) :=
  match l with
  | [] => ret []
  | x :: l' => sorted <~ sort l' ;; insert x sorted
  end.

(** A second stable sort, of the shape engines use on short arrays: an
    initial run is detected (and reversed when it descends strictly), and
    the remaining elements are put into it by binary insertion.  It is
    here to try failing inputs on another order of comparisons. *)

(** The run so far is [acc], its last element [previous] first. *)
Fixpoint extendRun (descending : bool) (previous : A) (acc rest : list A)
  : M St (list A * list A) :=
  match rest with
  | [] => ret (acc, [])
  | current :: rest' =>
      order <~ comparefn current previous ;;
      if (if descending then 0 <=? order else order <? 0) then ret (acc, rest)
      else extendRun descending current (current :: acc) rest'
  end.

(** The place of [pivot] among [prefix], searched between [left] and
    [right]. *)
Fixpoint place (fuel : nat) (pivot : A) (prefix : list A) (left right : nat)
  : M St nat :=
  if (left <? right)%nat then
    match fuel with
    | O => diverge
    | S fuel' =>
        let mid := (left + (right - left) / 2)%nat in
        match prefix !! mid with
        | None => ret left
        | Some y =>
            order <~ comparefn pivot y ;;
            if order <? 0 then place fuel' pivot prefix left mid
            else place fuel' pivot prefix (S mid) right
        end
    end
  else ret left.

Fixpoint insertAll (prefix rest : list A) : M St (list A) :=
  match rest with
  | [] => ret prefix
  | pivot :: rest' =>
      k <~ place (length prefix) pivot prefix 0 (length prefix) ;;
      insertAll (take k prefix ++ pivot :: drop k prefix) rest'
  end.

Definition sortRuns (l : list A) : M St (list A) :=
  match l with
  | x0 :: x1 :: rest =>
      order <~ comparefn x1 x0 ;;
      let descending := order <? 0 in
      run <~ extendRun descending x1 [x1; x0] rest ;;
      insertAll (if descending then fst run else rev (fst run)) (snd run)
  | _ => ret l
  end.
End Sort.

Section Platform.
(** [Date.now()] *)
Variable clock : nat -> Z.
(** [new Date(s).getTime()] for a string [s]; [None] when it is [NaN]. *)
Variable dateParse : string -> option Z.
(** [String(d)] for a [Date] object with the given time value. *)
Variable dateToString : option Z -> string.
(** [String.prototype.localeCompare] *)
Variable localeCompare : string -> string -> Z.

(** [String(v)] *)
Definition toString (v : Value) : string :=
  match v with
  | VUndefined => "undefined"
  | VNull => "null"
  | VBool true => "true"
  | VBool false => "false"
  | VNumber n => pretty n
  | VString s => s
  | VDate t => dateToString t
  end.

(** [new Date(v).getTime()], with [None] for a result that is not finite. *)
Definition getTime (v : Value) : option Z :=
  match v with
  | VUndefined => None
  | VNull => Some 0
  | VBool b => Some (if b then 1 else 0)
  | VNumber n => timeClip n
  | VString s => dateParse s
  | VDate t => t
  end.

(** The [for] loop of [pickCreatedMs]: [Some t] when an iteration returns
    [t], [None] when the loop runs to its end. *)
Fixpoint probe (keys : list string) (m : Object) : option Z :=
  match keys with
  | [] => None
  | k :: keys' =>
      let v := get m k in
      if isNullish v then probe keys' m
      else
        match v with
        | VNumber n => Some (if n <? 1000000000000 then n * 1000 else n)
        | _ =>
            match getTime v with
            | Some t => Some t
            | None => probe keys' m
            end
        end
  end.

Definition pickCreatedMs (m : Object) : M Calls Z :=
  match probe CREATED_KEYS m with
  | Some t => ret t
  | None => Date_now clock
  end.

(** [String(a?.id ?? a?._id ?? "")] *)
Definition idOf (a : Object) : string :=
  toString (coalesce (coalesce (get a "id") (get a "_id")) (VString "")).

Definition byCreatedAsc (a b : Object) : M Calls Z :=
  ta <~ pickCreatedMs a ;;
  tb <~ pickCreatedMs b ;;
  if negb (ta =? tb) then ret (ta - tb)
  else ret (localeCompare (idOf a) (idOf b)).

(** [[...].sort(byCreatedAsc)], the ordering the handler applies to the
    merged histories (the specification's [orderMessages]). *)
Definition orderMessages (l : list Object) : M Calls (list Object) :=
  sort byCreatedAsc l.

(** [typeof limit === "number" && limit > 0 ? merged.slice(-limit) : merged] *)
Definition limited (limit : Value) (merged : list Object) : list Object :=
  match limit with
  | VNumber n => if 0 <? n then slice (- n) merged else merged
  | _ => merged
  end.

(** *** The [/node/agent/messages] handler *)

(** [AgentService.listMessages], as the handler sees it: a thread id in, a
    history or a rejection out. *)
Definition ListMessages : Type := Value -> Reply (list Object).

Record AppCtx : Type := {
  ready : bool;
  agentParams : option ListMessages;
  agentSummary : option ListMessages
}.

(** The destructured request body; an absent field is [VUndefined]. *)
Record Body : Type := {
  paramThreadId : Value;
  summaryThreadId : Value;
  limit : Value
}.

Inductive Payload : Type :=
| ErrorPayload (error : string)
| MessagesPayload (paramThread summaryThread : Value) (mergedCount : nat)
    (messages : list Object).

(** [res.status(code).json(payload)] *)
Record Response : Type := {
  statusCode : Z;
  payload : Payload
}.

(** [e?.message ?? "Internal Server Error"] *)
Definition errorMessage (e : Thrown) : string :=
  match e with
  | JsError message => message
  | Rejection reason => reason
  end.

(** [thread ? svc.listMessages(thread) : Promise.resolve([])] *)
Definition fetchThread (svc : ListMessages) (thread : Value) : Reply (list Object) :=
  if truthy thread then svc thread else Resolved [].

(** Whether, of the two listings a request issues, the one of the parameter
    thread settles before the one of the summary thread. *)
Variable paramSettlesFirst : bool.

Definition messagesHandler (ctx : AppCtx) (body : Body) : M Calls Response :=
  match ready ctx, agentParams ctx, agentSummary ctx with
  | true, Some paramSvc, Some summarySvc =>
      if negb (truthy (paramThreadId body)) && negb (truthy (summaryThreadId body))
      then ret {| statusCode := 400;
                  payload := ErrorPayload "paramThreadId or summaryThreadId required" |}
      else
        tryCatch
          (let pending1 := fetchThread paramSvc (paramThreadId body) in
           let pending2 := fetchThread summarySvc (summaryThreadId body) in
           raw <~ awaitBoth paramSettlesFirst pending1 pending2 ;;
           let rawParam := fst raw in
           let rawSummary := snd raw in
           merged <~ orderMessages (rawParam ++ rawSummary) ;;
           let out := limited (limit body) merged in
           ret {| statusCode := 200;
                  payload := MessagesPayload
                               (coalesce (paramThreadId body) VNull)
                               (coalesce (summaryThreadId body) VNull)
                               (length out) out |})
          (fun e => ret {| statusCode := 500; payload := ErrorPayload (errorMessage e) |})
  | _, _, _ =>
      ret {| statusCode := 503; payload := ErrorPayload "Agent not ready" |}
  end.

End Platform.
End Reconciler.

(** ** utils/auth.ts: the credential provider *)

Module Auth.

(** [AuthConfig], read through [config?.field]: [None] is an absent field. *)
Record Config : Type := {
  tenantId : option string;
  clientId : option string;
  clientSecret : option string
}.

(** [response.data] of a successful token request. *)
Record TokenData : Type := {
  access_token : option string;
  expires_in : option Z
}.

(** The module-level variables [cachedToken] and [tokenExpireAt], and the
    counters of the clock reads and of the [axios.post] calls. *)
Record State : Type := {
  cachedToken : option string;
  tokenExpireAt : Z;
  clockReads : nat;
  posts : nat
}.

(** The state when the module is loaded. *)
Definition initial : State :=
  {| cachedToken := None; tokenExpireAt := 0; clockReads := 0; posts := 0 |}.

(** What [getToken] resolves to when it is not [null]. *)
Record Token : Type := {
  accessToken : option string;
  expiresAt : Z
}.

Section Provider.
(** [Date.now()] *)
Variable clock : nat -> Z.
(** [axios.post(tokenEndpoint, params)]: the index of the call, the endpoint
    and the form fields in; out, a rejection (transport failure or a
    response with an error status) or the response, whose [data] is [None]
    when the body is missing. *)
Variable axios_post : nat -> string -> list (string * string) -> Reply (option TokenData).

Definition Date_now : M State Z :=
  fun st =>
    (Return (clock (clockReads st)),
     {| cachedToken := cachedToken st; tokenExpireAt := tokenExpireAt st;
        clockReads := S (clockReads st); posts := posts st |}).

Definition call_axios_post (endpoint : string) (params : list (string * string))
  : M State (option TokenData) :=
  fun st =>
    await (axios_post (posts st) endpoint params)
      {| cachedToken := cachedToken st; tokenExpireAt := tokenExpireAt st;
         clockReads := clockReads st; posts := S (posts st) |}.

Definition readCache : M State (option string * Z) :=
  fun st => (Return (cachedToken st, tokenExpireAt st), st).

(** [cachedToken = token; tokenExpireAt = expire;] *)
Definition writeCache (token : option string) (expire : Z) : M State unit :=
  fun st =>
    (Return tt,
     {| cachedToken := token; tokenExpireAt := expire;
        clockReads := clockReads st; posts := posts st |}).

(** [x || ""] for an optional string *)
Definition orEmpty (x : option string) : string := default "" x.

(** Truthiness of [cachedToken]: neither [null] nor the empty string. *)
Definition present (token : option string) : bool :=
  match token with
  | Some s => negb (String.eqb s "")
  | None => false
  end.

(** [expires_in || 3600] *)
Definition ttl (expires_in : option Z) : Z :=
  match expires_in with
  | Some n => if n =? 0 then 3600 else n
  | None => 3600
  end.

(** [new Date(ms).toISOString()], which raises a [RangeError] on an
    invalid date; the string itself is only logged. *)
Definition toISOString (ms : Z) : M State unit :=
  match Js.timeClip ms with
  | Some _ => ret tt
  | None => throw (JsError "Invalid time value")
  end.

Definition getToken (config : Config) : M State (option Token) :=
  let tenantId := orEmpty (tenantId config) in
  let clientId := orEmpty (clientId config) in
  let clientSecret := orEmpty (clientSecret config) in
  let scope := clientId +:+ "/.default" in
  let tokenEndpoint :=
    "https://login.microsoftonline.com/" +:+ tenantId +:+ "/oauth2/v2.0/token" in
  ms <~ Date_now ;;
  let now := ms / 1000 in
  cache <~ readCache ;;
  if present (fst cache) && (now + 60 <? snd cache)
  then ret (Some {| accessToken := fst cache; expiresAt := snd cache |})
  else
    let params := [("grant_type", "client_credentials"); ("client_id", clientId);
                   ("client_secret", clientSecret); ("scope", scope)] in
    tryCatch
      (response <~ call_axios_post tokenEndpoint params ;;
       match response with
       | None => throw (JsError "Cannot destructure property of response.data")
       | Some data =>
           let expire := now + ttl (expires_in data) in
           writeCache (access_token data) expire ;;;
           toISOString (expire * 1000) ;;;
           ret (Some {| accessToken := access_token data; expiresAt := expire |})
       end)
      (fun _ => ret None).

(** A sequence of calls, one after the other on the same module state: for
    each call, the state it found, what it resolved to, and the state it
    left. *)
Fixpoint getTokens (configs : list Config) (st : State)
  : list (State * Outcome (option Token) * State) :=
  match configs with
  | [] => []
  | config :: configs' =>
      let (r, st') := getToken config st in
      (st, r, st') :: getTokens configs' st'
  end.

End Provider.
End Auth.

(** ** index.ts, the variant that answers with the last reply *)

Module Assistant.
Import Js.

(** [String.prototype.toLowerCase] on one 8-bit code unit: [A]-[Z], and
    the capital letters of Latin-1 ([U+00C0]-[U+00DE] without the
    multiplication sign), go 32 up. *)
Definition lowerUnit (c : ascii) : ascii :=
  let n := N_of_ascii c in
  if ((65 <=? n) && (n <=? 90) ||
      (192 <=? n) && (n <=? 222) && negb (n =? 215))%N
  then ascii_of_N (n + 32)
  else c.

Fixpoint toLowerCase (s : string) : string :=
  match s with
  | EmptyString => EmptyString
  | String c s' => String (lowerUnit c) (toLowerCase s')
  end.

Section Platform.
(** [String(d)] for a [Date] object with the given time value. *)
Variable dateToString : option Z -> string.

(** [String(m?.role ?? m?.author ?? m?.from ?? "")] *)
Definition roleOf (m : Object) : string :=
  Reconciler.toString dateToString
    (coalesce (coalesce (coalesce (get m "role") (get m "author")) (get m "from"))
       (VString "")).

(** [String(role).toLowerCase() === "assistant"] *)
Definition isAssistant (m : Object) : bool :=
  String.eqb (toLowerCase (roleOf m)) "assistant".

(** The [for] loop of [getLastAssistantMessage], on the messages from the
    last to the first: [Some m] when an iteration returns [m]. *)
Fixpoint scanBack (backwards : list Object) : option Object :=
  match backwards with
  | [] => None
  | m :: earlier => if isAssistant m then Some m else scanBack earlier
  end.

(** [getLastAssistantMessage(messages)] on an array of objects; [None] is
    [null]. *)
Definition getLastAssistantMessage (messages : list Object) : option Object :=
  match messages with
  | [] => None
  | _ =>
      match scanBack (rev messages) with
      | Some m => Some m
      | None => last messages
      end
  end.
End Platform.

End Assistant.

(** ** utils/agent.ts: the rest of the service *)

Module Service.
Import Js.

(** One entry of [m.content]: its [type], and [text?.value]. *)
Record ContentItem : Type := {
  type : string;
  text : option string
}.

(** A message as the remote service lists it. *)
Record Message : Type := {
  id : string;
  role : string;
  content : list ContentItem;
  createdAt : Value
}.

(** What [getAgent] resolves to. *)
Record AgentInfo : Type := {
  agent_id : string;
  agent_name : option string
}.

(** A double of the whole remote API.  [messages_list] gives the messages
    an iteration yields and, after them, the rejection that ends it if
    there is one. *)
Record Api : Type := {
  agents : Agent.Client;
  getAgent : nat -> string -> Reply AgentInfo;
  threads_create : nat -> Reply string;
  messages_list : nat -> string -> list Message * option string
}.

(** An [AgentService] object: its field [agentId]. *)
Record AgentService : Type := {
  agentId : string
}.

(** The module variable [ctx] of index.ts. *)
Record Ctx : Type := {
  ready : bool;
  agentParams : option AgentService;
  agentSummary : option AgentService
}.

(** The calls of [appendAndRun], the other remote calls, and [ctx]. *)
Record World : Type := {
  calls : Calls;
  agentReads : nat;      (* client.agents.getAgent *)
  threadCreates : nat;   (* client.agents.threads.create *)
  lists : nat;           (* client.agents.messages.list *)
  ctx : Ctx
}.

(** [const ctx = { ready: false, ... }], and nothing called yet. *)
Definition initial : World :=
  {| calls := noCalls; agentReads := 0; threadCreates := 0; lists := 0;
     ctx := {| ready := false; agentParams := None; agentSummary := None |} |}.

(** A computation on the call counters of [appendAndRun], run in the
    world. *)
Definition liftCalls {A} (m : M Calls A) : M World A :=
  fun w =>
    let (r, c) := m (calls w) in
    (r, {| calls := c; agentReads := agentReads w; threadCreates := threadCreates w;
           lists := lists w; ctx := ctx w |}).

Section Methods.
Variable clock : nat -> Z.
Variable api : Api.

(** [this.client.agents.getAgent(agentId)], not yet awaited. *)
Definition call_getAgent (agent : string) : M World (Reply AgentInfo) :=
  fun w =>
    (Return (getAgent api (agentReads w) agent),
     {| calls := calls w; agentReads := S (agentReads w);
        threadCreates := threadCreates w; lists := lists w; ctx := ctx w |}).

Definition call_threads_create : M World string :=
  fun w =>
    await (threads_create api (threadCreates w))
      {| calls := calls w; agentReads := agentReads w;
         threadCreates := S (threadCreates w); lists := lists w; ctx := ctx w |}.

Definition call_messages_list (threadId : string) : M World (list Message * option string) :=
  fun w =>
    (Return (messages_list api (lists w) threadId),
     {| calls := calls w; agentReads := agentReads w;
        threadCreates := threadCreates w; lists := S (lists w); ctx := ctx w |}).

(** The part of [ensureAgentReady] after the [await]: the service takes
    the id the remote gave. *)
Definition agentReady (agent : AgentInfo) : AgentService * AgentInfo :=
  ({| agentId := agent_id agent |}, agent).

(** [ensureAgentReady()]: the service as it is afterwards, and
    [{ id, name }]. *)
Definition ensureAgentReady (svc : AgentService) : M World (AgentService * AgentInfo) :=
  pending <~ call_getAgent (agentId svc) ;;
  agent <~ await pending ;;
  ret (agentReady agent).

(** [createThread()]: [{ id }] *)
Definition createThread : M World string := call_threads_create.

(** [m.content.find(c => c.type === "text")?.text?.value] *)
Fixpoint findText (content : list ContentItem) : option string :=
  match content with
  | [] => None
  | c :: rest => if String.eqb (type c) "text" then text c else findText rest
  end.

(** [{ id: m.id, role: m.role, text, createdAt: m.createdAt }] *)
Definition plain (m : Message) : Object :=
  {[ "id" := VString (id m);
     "role" := VString (role m);
     "text" := match findText (content m) with
               | Some value => VString value
               | None => VUndefined
               end;
     "createdAt" := createdAt m ]}.

(** The [for await] loop of [listMessages]; [out] is the array built so
    far. *)
Fixpoint collect (yielded : list Message) (out : list Object) : list Object :=
  match yielded with
  | [] => out
  | m :: rest => collect rest (out ++ [plain m])
  end.

(** [listMessages(threadId)] *)
Definition listMessages (threadId : string) : M World (list Object) :=
  iter <~ call_messages_list threadId ;;
  let out := collect (fst iter) [] in
  match snd iter with
  | Some reason => throw (Rejection reason)
  | None => ret out
  end.

(** [appendAndRun(threadId, message)] of the service [svc], with the
    default poll interval and timeout. *)
Definition appendAndRun (svc : AgentService) (fuel : nat) (threadId message : string)
  : M World Agent.RunResult :=
  liftCalls
    (Agent.appendAndRun clock (agents api) (agentId svc) fuel threadId message None None).
End Methods.

End Service.


(** ** index.ts: start-up and the send handler *)

Module Server.
Import Js Service.

(** The environment variables the start-up reads; [None] is an unset one. *)
Record Env : Type := {
  AZURE_AI_PROJECT_URL : option string;
  AZURE_Params_AGENT_ID : option string;
  AZURE_Summary_AGENT_ID : option string;
  PORT : option string
}.

(** The body of a [/node/agent/send] request; an absent field is
    [VUndefined]. *)
Record SendBody : Type := {
  agentType : Value;
  threadId : Value;
  message : Value
}.

Inductive Payload : Type :=
| ErrorPayload (error : string)
| SentPayload (agent : string) (thread : Value)
| ReadyPayload (isReady : bool).

(** [res.status(code).json(payload)] *)
Record Response : Type := {
  statusCode : Z;
  payload : Payload
}.

(** How the start-up ends: [app.listen] has returned, or
    [process.exit(code)]. *)
Inductive Process : Type :=
| Listening
| Exited (code : Z).

Definition readCtx : M World Ctx := fun w => (Return (ctx w), w).

Definition writeCtx (c : Ctx) : M World unit :=
  fun w =>
    (Return tt,
     {| calls := calls w; agentReads := agentReads w; threadCreates := threadCreates w;
        lists := lists w; ctx := c |}).

(** [ensureReady(res)]: whether the request may go on. *)
Definition ensureReady (c : Ctx) : bool :=
  negb (negb (ready c) || negb (bool_decide (is_Some (agentParams c)))
        || negb (bool_decide (is_Some (agentSummary c)))).

Definition notReady : Response :=
  {| statusCode := 503; payload := ErrorPayload "Agent not ready" |}.

(** [getSvc(agentType)]; the non-null assertions are erased, [None] is
    [undefined]. *)
Definition getSvc (c : Ctx) (agentType : string) : option AgentService :=
  if String.eqb agentType "param" then agentParams c else agentSummary c.

(** [GET /readyz] *)
Definition readyz : M World Response :=
  c <~ readCtx ;;
  ret {| statusCode := if ready c then 200 else 503;
         payload := ReadyPayload (ready c) |}.

(** [x || ""] for an environment variable *)
Definition orEmpty (x : option string) : string := default "" x.

(** The left operand of [process.env.PORT || 8080] when it is taken: the
    variable when it is set and not empty; [None] when 8080 is. *)
Definition portOperand (env : Env) : option string :=
  match PORT env with
  | Some s => if String.eqb s "" then None else Some s
  | None => None
  end.

Section Platform.
Variable clock : nat -> Z.
Variable api : Api.
(** [String(d)] for a [Date] object with the given time value. *)
Variable dateToString : option Z -> string.

(** [String(v ?? "").trim()] *)
Definition field (v : Value) : string :=
  trim (Reconciler.toString dateToString (coalesce v (VString ""))).

(** [POST /node/agent/send].  A thread id of the body that is not a string
    reaches the remote service in its [String] form. *)
Definition sendHandler (fuel : nat) (body : SendBody) : M World Response :=
  c <~ readCtx ;;
  if negb (ensureReady c) then ret notReady
  else
    let agentType := field (agentType body) in
    if negb (String.eqb agentType "param") && negb (String.eqb agentType "summary")
    then ret {| statusCode := 400;
                payload := ErrorPayload "agentType must be 'param' or 'summary'" |}
    else
      let message := field (message body) in
      if String.eqb message ""
      then ret {| statusCode := 400; payload := ErrorPayload "Message required" |}
      else
        tryCatch
          (svc <~ match getSvc c agentType with
                  | Some svc => ret svc
                  | None => throw (JsError "Cannot read properties of undefined")
                  end ;;
           thread <~ (if truthy (threadId body) then ret (threadId body)
                      else (t <~ createThread api ;; ret (VString t))) ;;
           appendAndRun clock api svc fuel
             (Reconciler.toString dateToString thread) message ;;;
           ret {| statusCode := 200; payload := SentPayload agentType thread |})
          (fun e =>
             ret {| statusCode := 500;
                    payload := ErrorPayload (Reconciler.errorMessage e) |}).

(** Whether, of the two [getAgent] calls of [bootstrap], the one for the
    parameter agent settles before the one for the summary agent. *)
Variable paramSettlesFirst : bool.
(** [app.listen(Number(port), ...)], as far as the start-up sees it: in, the
    port operand ([None] for 8080); out, the message of the error the call
    throws, [None] when it returns. *)
Variable app_listen : option string -> option string.

(** [bootstrap()].  Under [Promise.all] both [getAgent] calls are issued
    before either is awaited. *)
Definition bootstrap (env : Env) : M World unit :=
  let projectUrl := orEmpty (AZURE_AI_PROJECT_URL env) in
  let paramAgentId := orEmpty (AZURE_Params_AGENT_ID env) in
  let summaryAgentId := orEmpty (AZURE_Summary_AGENT_ID env) in
  if String.eqb projectUrl "" || String.eqb paramAgentId ""
     || String.eqb summaryAgentId ""
  then throw (JsError "Missing env: AZURE_AI_PROJECT_URL or agent IDs")
  else
    let paramAgent := {| agentId := paramAgentId |} in
    let summaryAgent := {| agentId := summaryAgentId |} in
    pending1 <~ call_getAgent api (agentId paramAgent) ;;
    pending2 <~ call_getAgent api (agentId summaryAgent) ;;
    agents <~ awaitBoth paramSettlesFirst pending1 pending2 ;;
    let agent1 := fst agents in
    let agent2 := snd agents in
    writeCtx {| ready := true;
                agentParams := Some (fst (agentReady agent1));
                agentSummary := Some (fst (agentReady agent2)) |}.

(** The start-up: [bootstrap], then [app.listen], both inside the [try];
    [process.exit(1)] when either raises. *)
Definition main (env : Env) : M World Process :=
  tryCatch
    (bootstrap env ;;;
     match app_listen (portOperand env) with
     | None => ret Listening
     | Some message => throw (JsError message)
     end)
    (fun _ => ret (Exited 1)).
End Platform.

End Server.

(** ** services/params.ts *)

Module Params.
Import Js.

(** What [fetchParams] keeps of an item. *)
Record SearchContextItem : Type := {
  displayName : Value;
  parameter : Value;
  isPostBody : Value;
  value : Value
}.

(** A group of the response; [None] is a [searchContextGroupList] that
    cannot be iterated. *)
Record Group : Type := {
  searchContextGroupList : option (list Object)
}.

(** [response.data]; [None] is a [contextGroups] that cannot be iterated. *)
Record Data : Type := {
  contextGroups : option (list Group)
}.

Definition url : string :=
  "https://adqueryprobet.trafficmanager.net/api/v1/context/searchcontext?mode=ta".

(** [`Bearer ${token}`]; a [null] token prints as [null]. *)
Definition authorization (token : option string) : string :=
  "Bearer " +:+ default "null" token.

Section Client.
(** [axios.get(url, { headers: { Authorization } })]: the index of the
    call, the url and the header in. *)
Variable axios_get : nat -> string -> string -> Reply (option Data).

(** [AQPget({ url, token })]; the state counts the requests. *)
Definition AQPget (target : string) (token : option string) : M nat (option Data) :=
  fun n => await (axios_get n target (authorization token)) (S n).

(** [{ displayName: item.displayName, ... }] *)
Definition pick (item : Object) : SearchContextItem :=
  {| displayName := get item "displayName";
     parameter := get item "parameter";
     isPostBody := get item "isPostBody";
     value := get item "value" |}.

(** The inner [for] loop; [acc] is the array [ret] built so far. *)
Fixpoint eachItem (items : list Object) (acc : list SearchContextItem)
  : list SearchContextItem :=
  match items with
  | [] => acc
  | item :: rest => eachItem rest (acc ++ [pick item])
  end.

(** The outer [for] loop. *)
Fixpoint eachGroup (groups : list Group) (acc : list SearchContextItem)
  : M nat (list SearchContextItem) :=
  match groups with
  | [] => ret acc
  | group :: rest =>
      match searchContextGroupList group with
      | Some items => eachGroup rest (eachItem items acc)
      | None => throw (JsError "group.searchContextGroupList is not iterable")
      end
  end.

Definition fetchParams (token : option string) : M nat (list SearchContextItem) :=
  response <~ AQPget url token ;;
  match response with
  | Some {| contextGroups := Some groups |} => eachGroup groups []
  | Some {| contextGroups := None |} =>
      throw (JsError "data.contextGroups is not iterable")
  | None =>
      throw (JsError "Cannot read properties of undefined (reading 'contextGroups')")
  end.
End Client.

End Params.


(** ** Test doubles *)

Module Doubles.

(** A remote agent API whose append and run creation succeed and whose
    [k]-th status read reports the [k]-th entry of [statuses] (the last one
    for ever after [statuses] is used up, [fallback] when it is empty). *)
Definition scripted (statuses : list string) (fallback : string) : Agent.Client :=
  {| Agent.messages_create := fun _ _ _ _ => Resolved tt;
     Agent.runs_create := fun _ _ _ =>
       Resolved {| Agent.id := "run_1"; Agent.status := "queued";
                   Agent.lastError := "null" |};
     Agent.runs_get := fun k _ run =>
       Resolved {| Agent.id := run;
                   Agent.status := nth k statuses (List.last statuses fallback);
                   Agent.lastError := "null" |} |}.

(** A remote agent API that is down: every call is rejected. *)
Definition unavailable : Agent.Client :=
  {| Agent.messages_create := fun _ _ _ _ => Rejected "ECONNREFUSED";
     Agent.runs_create := fun _ _ _ => Rejected "ECONNREFUSED";
     Agent.runs_get := fun _ _ _ => Rejected "ECONNREFUSED" |}.

Definition queuedRun : Agent.Run :=
  {| Agent.id := "run_1"; Agent.status := "queued"; Agent.lastError := "null" |}.

Definition inProgress : Agent.Run :=
  {| Agent.id := "run_1"; Agent.status := "in_progress"; Agent.lastError := "null" |}.

Definition completed : Agent.Run :=
  {| Agent.id := "run_1"; Agent.status := "completed"; Agent.lastError := "null" |}.

Definition threeReads : Agent.Client :=
  scripted ["in_progress"; "in_progress"; "completed"] "completed".

Definition neverLeavesQueued : Agent.Client := scripted ["queued"] "queued".

(** A clock that stands still. *)
Definition frozen (t : Z) : nat -> Z := fun _ => t.

(** A clock on which only the sleeps of the poll loop take time: the read
    that fixes the deadline and the first loop test see [0], each later
    loop test comes one [pollMs] after the one before. *)
Definition sleeping (pollMs : Z) : nat -> Z :=
  fun k => pollMs * Z.of_nat (Nat.pred k).

(** A clock given by its first readings, standing still afterwards. *)
Definition readings (ts : list Z) : nat -> Z :=
  fun k => nth k ts (List.last ts 0).

End Doubles.

(** ** Sample messages *)

Module Samples.
Import Js.

(** A platform without date strings: no string parses as a date. *)
Definition noDateParse : string -> option Z := fun _ => None.
Definition noDateString : option Z -> string := fun _ => "Invalid Date".

(** [{ created_at: 1700000000 }] and [{ createdAt: 1700000000000 }] *)
Definition inSeconds : Object := {[ "created_at" := VNumber 1700000000 ]}.
Definition inMillis : Object := {[ "createdAt" := VNumber 1700000000000 ]}.

(** [{ created_at: -2000000000000 }], a time before 1970 in milliseconds *)
Definition before1970 : Object := {[ "created_at" := VNumber (-2000000000000) ]}.

(** [{ id, created_at }] and [{ id }] *)
Definition stampedMessage (id : string) (created_at : Z) : Object :=
  <[ "id" := VString id ]> {[ "created_at" := VNumber created_at ]}.
Definition bareMessage (id : string) : Object := {[ "id" := VString id ]}.

End Samples.

(** ** A sample deployment of the messages handler *)

Module Deployment.
Import Js Reconciler Samples.

(** Three messages created in the same second, listed out of id order. *)
Definition history : list Object :=
  [stampedMessage "m3" 1700000000; stampedMessage "m1" 1700000000;
   stampedMessage "m2" 1700000000].

(** A [listMessages] that answers every thread with [history]. *)
Definition listHistory : ListMessages := fun _ => Resolved history.

Definition readyCtx : AppCtx :=
  {| ready := true; agentParams := Some listHistory; agentSummary := Some listHistory |}.

(** [{ paramThreadId: "thread_1", limit: 2 }] *)
Definition lastTwo : Body :=
  {| paramThreadId := VString "thread_1"; summaryThreadId := VUndefined;
     limit := VNumber 2 |}.

End Deployment.

(** ** Sample identity endpoints *)

Module Identity.
Import Auth.

(** An endpoint that always issues the same token for an hour. *)
Definition issuing : nat -> string -> list (string * string) -> Reply (option TokenData) :=
  fun _ _ _ => Resolved (Some {| access_token := Some "tok"; expires_in := Some 3600 |}).

(** An endpoint that issues a token with a lifetime no [Date] can hold. *)
Definition overlong : nat -> string -> list (string * string) -> Reply (option TokenData) :=
  fun _ _ _ =>
    Resolved (Some {| access_token := Some "tok"; expires_in := Some (10 ^ 13) |}).

(** An endpoint that is down. *)
Definition down : nat -> string -> list (string * string) -> Reply (option TokenData) :=
  fun _ _ _ => Rejected "ETIMEDOUT".

Definition config : Config :=
  {| tenantId := Some "tenant"; clientId := Some "client"; clientSecret := Some "secret" |}.

(** A cache holding a token that expires at second 1000. *)
Definition holding : State :=
  {| cachedToken := Some "old"; tokenExpireAt := 1000; clockReads := 0; posts := 0 |}.

End Identity.

(** ** Auxiliary definitions for the proofs *)

Module Pure.
Import Js Reconciler.

(** The call counters after [appendAndRun] has appended, created the run,
    fixed the deadline and read the status once. *)
Definition started (st : Calls) : Calls :=
  {| nows := S (nows st); appends := S (appends st); creates := S (creates st);
     gets := S (gets st); sleeps := sleeps st |}.

(** How [appendAndRun] turns the run the loop ends on into its result. *)
Definition conclude (r : Outcome Agent.Run * Calls) : Outcome Agent.RunResult * Calls :=
  match r with
  | (Return cur, st') =>
      if String.eqb (Agent.status cur) "failed"
      then (Throw (JsError ("run failed: " +:+ Agent.lastError cur)), st')
      else (Return {| Agent.runId := Agent.id cur;
                      Agent.resultStatus := Agent.status cur |}, st')
  | (Throw e, st') => (Throw e, st')
  | (OutOfFuel, st') => (OutOfFuel, st')
  end.

(** The stable insertion sort for a comparator without effects. *)
Section Sort.
Context {A : Type}.
Variable cmp : A -> A -> Z.

Fixpoint insert (x : A) (sorted : list A) : list A :=
  match sorted with
  | [] => [x]
  | y :: rest => if cmp x y <=? 0 then x :: y :: rest else y :: insert x rest
  end.

Fixpoint sort (l : list A) : list A :=
  match l with
  | [] => []
  | x :: l' => insert x (sort l')
  end.

(** [x] may stand before [y]. *)
Definition le (x y : A) : Prop := cmp x y <= 0.

(** [x] and [y] tie: each may stand before the other. *)
Definition tie (x y : A) : bool := (cmp x y <=? 0) && (cmp y x <=? 0).

(** [l'] holds the elements of [l], those that tie in the order they have
    in [l]. *)
Definition stable (l l' : list A) : Prop :=
  forall x,
    filter (fun y => tie x y = true) l' = filter (fun y => tie x y = true) l.
End Sort.

Section Stamps.
Variable clock : nat -> Z.
Variable dateParse : string -> option Z.
Variable dateToString : option Z -> string.
Variable localeCompare : string -> string -> Z.

(** The message carries a creation time of its own: the loop of
    [pickCreatedMs] returns, and the clock is not consulted. *)
Definition stamped (m : Object) : Prop :=
  is_Some (probe dateParse CREATED_KEYS m).

(** The creation time [pickCreatedMs] infers for [m] when the clock, if it
    is consulted, reads [now]. *)
Definition stampAt (now : Z) (m : Object) : Z :=
  default now (probe dateParse CREATED_KEYS m).

(** The clock does not bear on the comparison of the messages of [l]:
    either every message is stamped or the clock stands at [now]. *)
Definition settled (now : Z) (l : list Object) : Prop :=
  Forall stamped l \/ (forall k, clock k = now).

(** What [byCreatedAsc] computes on those creation times. *)
Definition compareAt (now : Z) (a b : Object) : Z :=
  let ta := stampAt now a in
  let tb := stampAt now b in
  if negb (ta =? tb) then ta - tb
  else localeCompare (idOf dateToString a) (idOf dateToString b).
End Stamps.

Section Cache.
Variable clock : nat -> Z.
Variable axios_post : nat -> string -> list (string * string)
                      -> Reply (option Auth.TokenData).

(** The guard of [getToken]: [cachedToken && tokenExpireAt > now + 60], on
    the clock reading a call that finds state [st] takes. *)
Definition fresh (st : Auth.State) : bool :=
  Auth.present (Auth.cachedToken st) &&
  (clock (Auth.clockReads st) / 1000 + 60 <? Auth.tokenExpireAt st).

(** Milliseconds of validity the cached token has left at the time of a
    call that finds state [st]. *)
Definition remainingMs (st : Auth.State) : Z :=
  Auth.tokenExpireAt st * 1000 - clock (Auth.clockReads st).

(** The token request [getToken] sends for a configuration: the endpoint
    and the form fields. *)
Definition endpointOf (config : Auth.Config) : string :=
  "https://login.microsoftonline.com/" +:+ Auth.orEmpty (Auth.tenantId config)
    +:+ "/oauth2/v2.0/token".

Definition paramsOf (config : Auth.Config) : list (string * string) :=
  [("grant_type", "client_credentials");
   ("client_id", Auth.orEmpty (Auth.clientId config));
   ("client_secret", Auth.orEmpty (Auth.clientSecret config));
   ("scope", Auth.orEmpty (Auth.clientId config) +:+ "/.default")].

(** What a call made at second [now] returns once it has gone to the
    exchange, read off the reply alone: the token of the reply with its
    expiry counted from [now]; [null] when the exchange delivered no data
    or the expiry cannot be logged.  The cache does not enter. *)
Definition exchanged (now : Z) (reply : Reply (option Auth.TokenData))
  : option Auth.Token :=
  match reply with
  | Resolved (Some data) =>
      let expire := now + Auth.ttl (Auth.expires_in data) in
      match Js.timeClip (expire * 1000) with
      | Some _ => Some {| Auth.accessToken := Auth.access_token data;
                          Auth.expiresAt := expire |}
      | None => None
      end
  | _ => None
  end.

(** The freshness margin, on one call for [config] that found [pre],
    resolved to [r] and left [post]: if no exchange was made, the token of
    the cache is what the call returns, and it had at least 60 s left; if
    less than 60 s were left, the exchange was made and the call returns
    what the exchange gave, not what the cache held. *)
Definition margin (config : Auth.Config)
  (step : Auth.State * Outcome (option Auth.Token) * Auth.State) : Prop :=
  let '(pre, r, post) := step in
  (Auth.posts post = Auth.posts pre ->
     60000 <= remainingMs pre /\
     r = Return (Some {| Auth.accessToken := Auth.cachedToken pre;
                         Auth.expiresAt := Auth.tokenExpireAt pre |})) /\
  (remainingMs pre < 60000 ->
     Auth.posts post = S (Auth.posts pre) /\
     r = Return (exchanged (clock (Auth.clockReads pre) / 1000)
                   (axios_post (Auth.posts pre) (endpointOf config)
                      (paramsOf config)))).
End Cache.

(** The exchange did not deliver token data: the request was rejected, or
    the response has no body. *)
Definition failedExchange (r : Reply (option Auth.TokenData)) : bool :=
  match r with
  | Resolved (Some _) => false
  | _ => true
  end.

(** Code-unit lexicographic comparison, a comparison [localeCompare] can be
    instantiated with. *)
Definition lexCompare (a b : string) : Z :=
  match String_as_OT.compare a b with
  | Lt => -1
  | Eq => 0
  | Gt => 1
  end.

End Pure.

(** ** More doubles and samples *)

Module Fixtures.
Import Js.

(** A run that is read as [in_progress] once and as [failed] afterwards. *)
Definition failing : Agent.Client := Doubles.scripted ["in_progress"; "failed"] "failed".

Definition failedRun : Agent.Run :=
  {| Agent.id := "run_1"; Agent.status := "failed"; Agent.lastError := "null" |}.

(** [{ created_at: "soon", createdAt: new Date(1700000000000) }] *)
Definition twoFields : Object :=
  {[ "created_at" := VString "soon"; "createdAt" := VDate (Some 1700000000000) ]}.

(** [{ role: "user" }], [{ author: "Assistant", id: "x" }] *)
Definition userTurn : Object := {[ "role" := VString "user" ]}.
Definition assistantTurn : Object :=
  {[ "author" := VString "Assistant"; "id" := VString "x" ]}.

(** A remote message with one text item, created at the given time. *)
Definition remoteMessage (id text : string) (t : Z) : Service.Message :=
  {| Service.id := id; Service.role := "assistant";
     Service.content := [{| Service.type := "image"; Service.text := None |};
                         {| Service.type := "text"; Service.text := Some text |}];
     Service.createdAt := VDate (Some t) |}.

(** A remote service that knows every agent as [asst_<id>], gives the
    thread [thread_new], lists nothing, and runs as [threeReads] does. *)
Definition remote : Service.Api :=
  {| Service.agents := Doubles.threeReads;
     Service.getAgent := fun _ agent =>
       Resolved {| Service.agent_id := "asst_" +:+ agent; Service.agent_name := None |};
     Service.threads_create := fun _ => Resolved "thread_new";
     Service.messages_list := fun _ _ => ([], None) |}.

(** A remote service that knows no agent. *)
Definition unknown : Service.Api :=
  {| Service.agents := Doubles.threeReads;
     Service.getAgent := fun _ agent => Rejected ("no agent " +:+ agent);
     Service.threads_create := fun _ => Resolved "thread_new";
     Service.messages_list := fun _ _ => ([], None) |}.

(** An [app.listen] that takes the default port and throws on any other
    operand. *)
Definition defaultPortOnly : option string -> option string :=
  fun port =>
    match port with
    | None => None
    | Some _ => Some "options.port should be >= 0 and < 65536"
    end.

Definition env : Server.Env :=
  {| Server.AZURE_AI_PROJECT_URL := Some "https://project.example";
     Server.AZURE_Params_AGENT_ID := Some "p";
     Server.AZURE_Summary_AGENT_ID := Some "s";
     Server.PORT := None |}.

(** The world after [bootstrap env] on [remote]. *)
Definition warm : Service.World :=
  {| Service.calls := noCalls; Service.agentReads := 2; Service.threadCreates := 0;
     Service.lists := 0;
     Service.ctx := {| Service.ready := true;
                       Service.agentParams := Some {| Service.agentId := "asst_p" |};
                       Service.agentSummary := Some {| Service.agentId := "asst_s" |} |} |}.

(** [{ agentType: " param ", threadId: "thread_1", message: "hello" }] and
    [{ agentType: "summary", message: "hello" }] *)
Definition onThread : Server.SendBody :=
  {| Server.agentType := VString " param "; Server.threadId := VString "thread_1";
     Server.message := VString "hello" |}.
Definition noThread : Server.SendBody :=
  {| Server.agentType := VString "summary"; Server.threadId := VUndefined;
     Server.message := VString "hello" |}.

(** A search-context response of two groups, of one item and two. *)
Definition item (name : string) : Object :=
  {[ "displayName" := VString name; "parameter" := VString "q";
     "isPostBody" := VBool false; "value" := VString ""; "extra" := VNumber 1 ]}.

Definition twoGroups : Params.Data :=
  {| Params.contextGroups :=
       Some [{| Params.searchContextGroupList := Some [item "a"] |};
             {| Params.searchContextGroupList := Some [item "b"; item "c"] |}] |}.

Definition searchContext : nat -> string -> string -> Reply (option Params.Data) :=
  fun _ _ _ => Resolved (Some twoGroups).

(** The handler's context before [bootstrap] has run. *)
Definition coldCtx : Reconciler.AppCtx :=
  {| Reconciler.ready := false; Reconciler.agentParams := None;
     Reconciler.agentSummary := None |}.

(** A ready context whose two listings are both rejected, and a request
    for both threads, and one for the parameter thread alone. *)
Definition paramDown : Reconciler.ListMessages := fun _ => Rejected "param down".
Definition summaryDown : Reconciler.ListMessages := fun _ => Rejected "summary down".

Definition downCtx : Reconciler.AppCtx :=
  {| Reconciler.ready := true; Reconciler.agentParams := Some paramDown;
     Reconciler.agentSummary := Some summaryDown |}.

Definition bothThreads : Reconciler.Body :=
  {| Reconciler.paramThreadId := VString "thread_1";
     Reconciler.summaryThreadId := VString "thread_2";
     Reconciler.limit := VUndefined |}.

Definition paramThread : Reconciler.Body :=
  {| Reconciler.paramThreadId := VString "thread_1";
     Reconciler.summaryThreadId := VUndefined;
     Reconciler.limit := VUndefined |}.

End Fixtures.

(** ** More auxiliary definitions *)

Module Notions.
Import Js Reconciler.

Section Stamps.
Variable dateParse : string -> option Z.

(** A value [pickCreatedMs] passes over: [null] or [undefined], or
    something that is not a number and does not give a finite time. *)
Definition unusable (v : Value) : Prop :=
  isNullish v = true \/ (isNumber v = false /\ getTime dateParse v = None).
End Stamps.

(** The items of a response, group after group; a group that cannot be
    iterated has none. *)
Definition itemsOf (groups : list Params.Group) : list Object :=
  concat (map (fun group => default [] (Params.searchContextGroupList group)) groups).

(** How many entries the answer of the messages handler holds, out of
    [total] merged ones. *)
Definition capped (limit : Value) (total : nat) : nat :=
  match limit with
  | VNumber n => if 0 <? n then Nat.min (Z.to_nat n) total else total
  | _ => total
  end.

End Notions.


(** * Properties *)

(** ** The monad *)

Section MonadFacts.
Context {S : Type}.

Lemma bind_Return {A B} (m : M S A) (k : A -> M S B) st a st' :
  m st = (Return a, st') -> bind m k st = k a st'.
Proof. intros H. unfold bind. now rewrite H. Qed.

Lemma bind_Throw {A B} (m : M S A) (k : A -> M S B) st e st' :
  m st = (Throw e, st') -> bind m k st = (Throw e, st').
Proof. intros H. unfold bind. now rewrite H. Qed.

Lemma bind_OutOfFuel {A B} (m : M S A) (k : A -> M S B) st st' :
  m st = (OutOfFuel, st') -> bind m k st = (OutOfFuel, st').
Proof. intros H. unfold bind. now rewrite H. Qed.

Lemma await_Resolved {A} (a : A) (st : S) : await (Resolved a) st = (Return a, st).
Proof. reflexivity. Qed.

Lemma await_Rejected {A} reason (st : S) :
  await (@Rejected A reason) st = (Throw (Rejection reason), st).
Proof. reflexivity. Qed.
End MonadFacts.

(** ** [trim] *)

Module JsFacts.
Import Js.

Lemma blank_rev_app s1 s2 :
  blank (String.rev_app s1 s2) = blank s1 && blank s2.
Proof.
  revert s2. induction s1 as [|c s1 IH]; intros s2; simpl; [reflexivity|].
  rewrite IH. simpl. destruct (isWhiteSpace c), (blank s1), (blank s2); reflexivity.
Qed.

Lemma blank_rev s : blank (String.rev s) = blank s.
Proof. unfold String.rev. rewrite blank_rev_app. simpl. apply andb_true_r. Qed.

Lemma rev_app_empty s1 s2 : String.rev_app s1 s2 = "" -> s1 = "" /\ s2 = "".
Proof.
  revert s2. induction s1 as [|c s1 IH]; intros s2; simpl; [tauto|].
  intros H. apply IH in H. destruct H as [_ H]. discriminate H.
Qed.

Lemma trimStart_empty s : trimStart s = "" <-> blank s = true.
Proof.
  induction s as [|c s IH]; simpl; [tauto|].
  destruct (isWhiteSpace c); simpl; [exact IH|]. split; discriminate.
Qed.

Lemma blank_trimStart s : blank (trimStart s) = blank s.
Proof.
  induction s as [|c s IH]; simpl; [reflexivity|].
  destruct (isWhiteSpace c) eqn:E; simpl; [exact IH|]. now rewrite E.
Qed.

(** [trim] leaves nothing exactly of the strings made of white space. *)
Lemma trim_empty s : trim s = "" <-> blank s = true.
Proof.
  unfold trim, trimEnd. split.
  - intros H. apply rev_app_empty in H. destruct H as [H _].
    apply trimStart_empty in H. rewrite blank_rev, blank_trimStart in H. exact H.
  - intros H. apply trimStart_empty in H. rewrite H. reflexivity.
Qed.

Lemma trim_eqb s : String.eqb (trim s) "" = blank s.
Proof.
  destruct (blank s) eqn:E.
  - apply String.eqb_eq. now apply trim_empty.
  - apply String.eqb_neq. intros H. apply trim_empty in H. congruence.
Qed.

End JsFacts.

(** ** The run orchestrator *)

Module AgentFacts.
Import Agent.

Section Orchestrator.
Variable clock : nat -> Z.
Variable client : Client.
Variable agentId : string.

Local Abbreviation poll := (poll clock client).
Local Abbreviation appendAndRun := (appendAndRun clock client agentId).
Local Abbreviation started := Pure.started.
Local Abbreviation conclude := Pure.conclude.

(** Up to the loop, an invocation whose message passes the check and whose
    append, run creation and first status read succeed. *)
Lemma appendAndRun_started fuel threadId message pollMs timeoutMs st run cur :
  Js.blank message = false ->
  messages_create client (appends st) threadId "user" message = Resolved tt ->
  runs_create client (creates st) threadId agentId = Resolved run ->
  runs_get client (gets st) threadId (id run) = Resolved cur ->
  appendAndRun fuel threadId message pollMs timeoutMs st =
  conclude (poll fuel threadId (id run) (default 1000 pollMs)
              (clock (nows st) + default 120000 timeoutMs) cur (started st)).
Proof.
  intros Hmsg Happend Hcreate Hget.
  unfold Agent.appendAndRun. rewrite JsFacts.trim_eqb, Hmsg.
  unfold bind at 1. unfold call_messages_create at 1. rewrite Happend. simpl.
  unfold bind at 1. unfold call_runs_create at 1. simpl. rewrite Hcreate. simpl.
  unfold bind at 1. unfold Date_now at 1. simpl.
  unfold bind at 1. unfold call_runs_get at 1. simpl. rewrite Hget. simpl.
  unfold bind, Pure.conclude, Pure.started.
  destruct (poll _ _ _ _ _ _ _) as [[cur'| |] st']; try reflexivity.
  destruct (String.eqb _ _); reflexivity.
Qed.

(** The loop touches neither the append nor the run-creation counter, and
    the other counters only grow. *)
Lemma poll_counters fuel threadId run pollMs end_ :
  forall cur st r st',
    poll fuel threadId run pollMs end_ cur st = (r, st') ->
    appends st' = appends st /\ creates st' = creates st /\
    (gets st <= gets st')%nat /\ (sleeps st <= sleeps st')%nat.
Proof.
  induction fuel as [|fuel IH]; intros cur st r st'; simpl.
  - destruct (pending cur); [|intros [= <- <-]; lia].
    unfold bind, Date_now. destruct (_ <? _); intros [= <- <-]; simpl; lia.
  - destruct (pending cur); [|intros [= <- <-]; lia].
    unfold bind at 1. unfold Date_now at 1.
    destruct (_ <? _); [|intros [= <- <-]; simpl; lia].
    unfold bind at 1. unfold sleep at 1.
    unfold bind at 1. unfold call_runs_get at 1. simpl.
    destruct (runs_get client _ _ _) as [cur'|reason]; simpl.
    + intros H. apply IH in H. simpl in H. lia.
    + intros [= <- <-]. simpl. lia.
Qed.

(** A status that is not pending ends the loop at once: no clock read, no
    delay, no further status read, whatever the fuel. *)
Lemma poll_settled fuel threadId run pollMs end_ cur st :
  pending cur = false ->
  poll fuel threadId run pollMs end_ cur st = (Return cur, st).
Proof. intros H. destruct fuel; simpl; now rewrite H. Qed.

Section Script.
(** A script of successful status reads, from the first read of the
    invocation on. *)
Variables (threadId run : string) (pollMs end_ : Z).
Variable reads : nat -> Run.
(** Index of the first status read and of the clock read of the first loop
    test. *)
Variables (g0 c0 : nat).
Variable n : nat.
Hypothesis Hreads : forall k, (k <= n)%nat ->
  runs_get client (g0 + k) threadId run = Resolved (reads k).
Hypothesis Hpending : forall k, (k < n)%nat -> pending (reads k) = true.
Hypothesis Hearly : forall k, (k < n)%nat -> clock (c0 + k) < end_.

(** While the status is pending and the deadline is ahead, the loop sleeps
    and reads the status again. *)
Lemma poll_iterate d : forall j fuel st,
  (j + d = n)%nat -> (d <= fuel)%nat ->
  gets st = (g0 + j + 1)%nat -> nows st = (c0 + j)%nat ->
  poll fuel threadId run pollMs end_ (reads j) st =
  poll (fuel - d) threadId run pollMs end_ (reads n)
    {| nows := (c0 + n)%nat; appends := appends st; creates := creates st;
       gets := (g0 + n + 1)%nat; sleeps := (sleeps st + d)%nat |}.
Proof.
  induction d as [|d IH]; intros j fuel st Hj Hfuel Hg Hc.
  - assert (j = n) by lia. subst j.
    rewrite Nat.sub_0_r, Nat.add_0_r. destruct st; simpl in *. now subst.
  - destruct fuel as [|fuel]; [lia|]. simpl.
    rewrite (Hpending j) by lia.
    unfold bind at 1. unfold Date_now at 1. rewrite Hc.
    pose proof (Hearly j ltac:(lia)) as Hlt. apply Z.ltb_lt in Hlt. rewrite Hlt.
    unfold bind at 1. unfold sleep at 1.
    unfold bind at 1. unfold call_runs_get at 1. simpl.
    rewrite Hg. replace (g0 + j + 1)%nat with (g0 + S j)%nat by lia.
    rewrite (Hreads (S j)) by lia. simpl.
    rewrite (IH (S j)); simpl; try lia.
    f_equal. f_equal; lia.
Qed.
End Script.

Lemma pending_not_failed cur : pending cur = true -> String.eqb (status cur) "failed" = false.
Proof.
  unfold pending. intros H. apply orb_true_iff in H.
  destruct H as [H|H]; apply String.eqb_eq in H; rewrite H; reflexivity.
Qed.

(** C7. An empty or white-space-only message makes [appendAndRun] raise
    [InvalidArgument] and leaves every call counter as it was: no append, no
    run creation, no status read (and no clock read or delay either). *)
Theorem appendAndRun_blank_message fuel threadId message pollMs timeoutMs st :
  Js.blank message = true ->
  appendAndRun fuel threadId message pollMs timeoutMs st = (Throw InvalidArgument, st).
Proof.
  intros H. unfold Agent.appendAndRun. rewrite JsFacts.trim_eqb, H. reflexivity.
Qed.

(** C2. When the append and the run creation succeed, every status read up
    to the deadline reports a pending status ([queued] or [in_progress]),
    and the [n]-th loop test is the first to find the deadline reached, then
    [appendAndRun] (given fuel for [n] iterations) returns normally, with
    the status of the last read exactly as it was reported, after [n + 1]
    status reads and [n] delays.  It raises nothing. *)
Theorem appendAndRun_timeout fuel threadId message pollMs timeoutMs st run reads n :
  Js.blank message = false ->
  messages_create client (appends st) threadId "user" message = Resolved tt ->
  runs_create client (creates st) threadId agentId = Resolved run ->
  (forall k, (k <= n)%nat ->
     runs_get client (gets st + k) threadId (id run) = Resolved (reads k)) ->
  (forall k, (k <= n)%nat -> pending (reads k) = true) ->
  (forall k, (k < n)%nat ->
     clock (S (nows st) + k) < clock (nows st) + default 120000 timeoutMs) ->
  clock (nows st) + default 120000 timeoutMs <= clock (S (nows st) + n) ->
  (n <= fuel)%nat ->
  appendAndRun fuel threadId message pollMs timeoutMs st =
  (Return {| runId := id (reads n); resultStatus := status (reads n) |},
   {| nows := (nows st + n + 2)%nat; appends := S (appends st);
      creates := S (creates st); gets := (gets st + n + 1)%nat;
      sleeps := (sleeps st + n)%nat |}).
Proof.
  intros Hmsg Happend Hcreate Hreads Hpend Hearly Hlate Hfuel.
  rewrite (appendAndRun_started _ _ _ _ _ _ run (reads 0%nat)); auto.
  2:{ rewrite <- (Hreads 0%nat) by lia. f_equal. lia. }
  rewrite (poll_iterate threadId (id run) (default 1000 pollMs) _ reads
             (gets st) (S (nows st)) n) with (d := n) (j := 0%nat);
    simpl; auto; try lia.
  2:{ intros k Hk. apply Hpend. lia. }
  simpl in Hlate.
  destruct (fuel - n)%nat; simpl; rewrite (Hpend n) by lia;
    unfold bind, Date_now; simpl;
    (destruct (Z.ltb_spec (clock (S (nows st + n)))
                          (clock (nows st) + default 120000 timeoutMs)); [lia|]);
    unfold Pure.conclude, ret; rewrite (pending_not_failed (reads n)) by (apply Hpend; lia);
    do 2 f_equal; f_equal; lia.
Qed.

(** C1, as the code has it.  When the append and the run creation succeed,
    the first two status reads report [in_progress], the third reports
    [completed], and the deadline is still ahead at the loop test after
    each of the first two reads, then [appendAndRun] (given fuel for two
    iterations) issues exactly three status reads and returns the status
    [completed]. *)
Theorem appendAndRun_three_reads fuel threadId message pollMs timeoutMs st run r0 r1 r2 :
  Js.blank message = false ->
  messages_create client (appends st) threadId "user" message = Resolved tt ->
  runs_create client (creates st) threadId agentId = Resolved run ->
  runs_get client (gets st) threadId (id run) = Resolved r0 ->
  runs_get client (gets st + 1) threadId (id run) = Resolved r1 ->
  runs_get client (gets st + 2) threadId (id run) = Resolved r2 ->
  status r0 = "in_progress" -> status r1 = "in_progress" -> status r2 = "completed" ->
  clock (nows st + 1) < clock (nows st) + default 120000 timeoutMs ->
  clock (nows st + 2) < clock (nows st) + default 120000 timeoutMs ->
  (2 <= fuel)%nat ->
  exists st',
    appendAndRun fuel threadId message pollMs timeoutMs st =
    (Return {| runId := id r2; resultStatus := "completed" |}, st') /\
    gets st' = (gets st + 3)%nat /\ appends st' = S (appends st) /\
    creates st' = S (creates st).
Proof.
  intros Hmsg Happend Hcreate H0 H1 H2 S0 S1 S2 C1 C2 Hfuel.
  set (reads := fun k : nat => match k with O => r0 | S O => r1 | _ => r2 end).
  rewrite (appendAndRun_started _ _ _ _ _ _ run r0); auto.
  rewrite (poll_iterate threadId (id run) (default 1000 pollMs) _ reads
             (gets st) (S (nows st)) 2) with (d := 2%nat) (j := 0%nat);
    simpl; auto; try lia.
  - rewrite poll_settled by (unfold pending; simpl; rewrite S2; reflexivity).
    unfold Pure.conclude. simpl. rewrite S2. simpl.
    eexists. split; [reflexivity|]. simpl. repeat split; lia.
  - intros k Hk. destruct k as [|[|[|k]]]; simpl; try lia.
    + rewrite <- H0. f_equal. lia.
    + rewrite <- H1. f_equal.
    + rewrite <- H2. f_equal.
  - intros k Hk. destruct k as [|[|k]]; simpl; try lia;
      unfold pending; [rewrite S0|rewrite S1]; reflexivity.
  - intros k Hk. destruct k as [|[|k]]; simpl; try lia.
    + replace (S (nows st + 0)) with (nows st + 1)%nat by lia. exact C1.
    + replace (S (nows st + 1)) with (nows st + 2)%nat by lia. exact C2.
Qed.

(** C9, as the code has it.  For a message that is neither empty nor all
    white space, and any poll interval and timeout (zero and negative ones
    included), when the append and the run creation succeed [appendAndRun]
    issues exactly one append, exactly one run creation and at least one
    status read; and when the first status read already reports a status
    that is not pending it finishes, whatever the fuel, after that single
    read and without any delay. *)
Theorem appendAndRun_call_counts fuel threadId message pollMs timeoutMs st run r st' :
  Js.blank message = false ->
  messages_create client (appends st) threadId "user" message = Resolved tt ->
  runs_create client (creates st) threadId agentId = Resolved run ->
  appendAndRun fuel threadId message pollMs timeoutMs st = (r, st') ->
  appends st' = S (appends st) /\ creates st' = S (creates st) /\
  (S (gets st) <= gets st')%nat /\
  (forall cur,
     runs_get client (gets st) threadId (id run) = Resolved cur ->
     pending cur = false ->
     gets st' = S (gets st) /\ sleeps st' = sleeps st /\ r <> OutOfFuel).
Proof.
  intros Hmsg Happend Hcreate Hrun.
  destruct (runs_get client (gets st) threadId (id run)) as [cur|reason] eqn:Hget.
  - rewrite (appendAndRun_started _ _ _ _ _ _ run cur) in Hrun by auto.
    destruct (poll _ _ _ _ _ _ _) as [r1 st1] eqn:Hpoll.
    pose proof (poll_counters _ _ _ _ _ _ _ _ _ Hpoll) as (Ha & Hc & Hg & Hs).
    assert (st' = st1) as ->.
    { unfold Pure.conclude in Hrun. destruct r1; [destruct (String.eqb _ _)| |];
        now inversion Hrun. }
    simpl in *. split; [lia | split; [lia | split; [lia |]]].
    intros cur' [= <-] Hp. rewrite poll_settled in Hpoll by exact Hp.
    inversion Hpoll; subst. simpl. split; [reflexivity | split; [reflexivity |]].
    destruct (String.eqb _ _); inversion Hrun; discriminate.
  - revert Hrun. unfold Agent.appendAndRun. rewrite JsFacts.trim_eqb, Hmsg.
    unfold bind at 1. unfold call_messages_create at 1. rewrite Happend. simpl.
    unfold bind at 1. unfold call_runs_create at 1. simpl. rewrite Hcreate. simpl.
    unfold bind at 1. unfold Date_now at 1. simpl.
    unfold bind at 1. unfold call_runs_get at 1. simpl. rewrite Hget. simpl.
    intros [= <- <-]. simpl. split; [lia | split; [lia | split; [lia |]]].
    intros cur [=].
Qed.

End Orchestrator.
End AgentFacts.

(** *** The orchestrator on the doubles *)

Module AgentExamples.
Import Agent.

(** A message of white space only: no call reaches the double. *)
Lemma appendAndRun_blank_message_witness :
  Js.blank "  " = true /\
  appendAndRun (Doubles.frozen 0) Doubles.unavailable "agent" 0 "thread" "  "
    None None noCalls = (Throw InvalidArgument, noCalls).
Proof.
  split; [reflexivity|].
  apply (AgentFacts.appendAndRun_blank_message (Doubles.frozen 0)
           Doubles.unavailable "agent" 0 "thread" "  " None None noCalls).
  reflexivity.
Defined.

(** A run that never leaves [queued], polled every 1000 ms under a timeout
    of 3000 ms: three delays, four status reads, and [queued] handed back. *)
Lemma appendAndRun_timeout_witness :
  appendAndRun (Doubles.sleeping 1000) Doubles.neverLeavesQueued "agent" 3 "thread" "hello"
    (Some 1000) (Some 3000) noCalls =
  (Return {| runId := "run_1"; resultStatus := "queued" |},
   {| nows := 5; appends := 1; creates := 1; gets := 4; sleeps := 3 |}).
Proof.
  apply (AgentFacts.appendAndRun_timeout (Doubles.sleeping 1000) Doubles.neverLeavesQueued
           "agent" 3 "thread" "hello" (Some 1000) (Some 3000) noCalls Doubles.queuedRun
           (fun _ => Doubles.queuedRun) 3).
  - reflexivity.
  - reflexivity.
  - reflexivity.
  - intros k _. destruct k as [|[|k]]; reflexivity.
  - intros k _. reflexivity.
  - intros k Hk. destruct k as [|[|[|k]]]; [reflexivity..|lia].
  - discriminate.
  - lia.
Defined.

(** Two reads of [in_progress], then [completed], under the default
    timeout. *)
Lemma appendAndRun_three_reads_witness :
  exists st',
    appendAndRun (Doubles.sleeping 1000) Doubles.threeReads "agent" 2 "thread" "hello"
      None None noCalls =
    (Return {| runId := "run_1"; resultStatus := "completed" |}, st') /\
    gets st' = 3%nat /\ appends st' = 1%nat /\ creates st' = 1%nat.
Proof.
  apply (AgentFacts.appendAndRun_three_reads (Doubles.sleeping 1000) Doubles.threeReads
           "agent" 2 "thread" "hello" None None noCalls Doubles.queuedRun
           Doubles.inProgress Doubles.inProgress Doubles.completed); reflexivity.
Defined.

(** C1 as stated fails: the same run under a timeout of 1000 ms.  The
    deadline is reached at the loop test after the second read, the third
    read is never issued, and the status handed back is [in_progress]. *)
Lemma appendAndRun_three_reads_counterexample :
  (forall k, runs_get Doubles.threeReads k "thread" "run_1" =
             Resolved (match k with
                       | O | S O => Doubles.inProgress
                       | _ => Doubles.completed
                       end)) /\
  appendAndRun (Doubles.sleeping 1000) Doubles.threeReads "agent" 10 "thread" "hello"
    (Some 1000) (Some 1000) noCalls =
  (Return {| runId := "run_1"; resultStatus := "in_progress" |},
   {| nows := 3; appends := 1; creates := 1; gets := 2; sleeps := 1 |}).
Proof.
  split; [|reflexivity].
  intros k. destruct k as [|[|[|[|k]]]]; reflexivity.
Qed.

(** A terminal status on the first read, under a negative timeout. *)
Lemma appendAndRun_call_counts_witness :
  let st' := {| nows := 1; appends := 1; creates := 1; gets := 1; sleeps := 0 |} in
  appends st' = 1%nat /\ creates st' = 1%nat /\ (1 <= gets st')%nat /\
  (forall cur,
     runs_get (Doubles.scripted ["completed"] "completed") 0 "thread" "run_1" =
       Resolved cur ->
     pending cur = false ->
     gets st' = 1%nat /\ sleeps st' = 0%nat /\
     Return {| runId := "run_1"; resultStatus := "completed" |} <> OutOfFuel).
Proof.
  apply (AgentFacts.appendAndRun_call_counts (Doubles.frozen 0)
           (Doubles.scripted ["completed"] "completed") "agent" 0 "thread" "hello"
           (Some 1000) (Some (-5)) noCalls Doubles.queuedRun
           (Return {| runId := "run_1"; resultStatus := "completed" |})
           {| nows := 1; appends := 1; creates := 1; gets := 1; sleeps := 0 |});
    reflexivity.
Defined.

(** C9 as stated fails: when the remote service rejects the append, the
    message passes the check and yet no run is created and no status is
    read. *)
Lemma appendAndRun_call_counts_counterexample :
  Js.blank "hello" = false /\
  appendAndRun (Doubles.frozen 0) Doubles.unavailable "agent" 10 "thread" "hello"
    None None noCalls =
  (Throw (Rejection "ECONNREFUSED"),
   {| nows := 0; appends := 1; creates := 0; gets := 0; sleeps := 0 |}).
Proof. split; reflexivity. Qed.

End AgentExamples.

(** ** Sorting *)

Module SortFacts.

Section Pure.
Context {A : Type}.
Variable cmp : A -> A -> Z.

Local Abbreviation le := (Pure.le cmp).
Local Abbreviation insert := (Pure.insert cmp).
Local Abbreviation sort := (Pure.sort cmp).
Local Abbreviation tie := (Pure.tie cmp).
Local Abbreviation stable := (Pure.stable cmp).

Lemma insert_perm x l : insert x l ≡ₚ x :: l.
Proof.
  induction l as [|y l IH]; simpl; [reflexivity|].
  destruct (cmp x y <=? 0); [reflexivity|].
  rewrite IH. apply Permutation_swap.
Qed.

Lemma sort_perm l : sort l ≡ₚ l.
Proof.
  induction l as [|x l IH]; simpl; [reflexivity|].
  rewrite insert_perm. now rewrite IH.
Qed.

(** Sorting a list that is in order already changes nothing: an element
    that may stand before the head of the sorted rest is put in front. *)
Lemma sort_fixed l : StronglySorted le l -> sort l = l.
Proof.
  induction 1 as [|x l Hl IH Hx]; simpl; [reflexivity|].
  rewrite IH. destruct l as [|y l]; simpl; [reflexivity|].
  apply Forall_cons in Hx. destruct Hx as [Hxy _].
  unfold Pure.le in Hxy. apply Z.leb_le in Hxy. now rewrite Hxy.
Qed.

Lemma sorted_lookup l :
  StronglySorted le l ->
  forall i j a b, (i < j)%nat -> l !! i = Some a -> l !! j = Some b -> le a b.
Proof.
  induction 1 as [|x l Hl IH Hx]; intros i j a b Hij Hi Hj.
  - discriminate.
  - destruct j as [|j]; [lia|]. simpl in Hj.
    destruct i as [|i]; simpl in Hi.
    + injection Hi as <-. rewrite Forall_forall in Hx. apply Hx.
      eapply list_elem_of_lookup_2. exact Hj.
    + apply (IH i j); auto. lia.
Qed.

Section Consistent.
(** A consistent comparator: any two elements are comparable, and the
    order is transitive. *)
Hypothesis cmp_total : forall x y, le x y \/ le y x.
Hypothesis cmp_trans : forall x y z, le x y -> le y z -> le x z.

Lemma insert_sorted x l : StronglySorted le l -> StronglySorted le (insert x l).
Proof.
  induction 1 as [|y l Hl IH Hy]; simpl.
  - repeat constructor.
  - destruct (Z.leb_spec (cmp x y) 0) as [Hxy|Hxy].
    + constructor; [now constructor|].
      constructor; [exact Hxy|].
      eapply Forall_impl; [exact Hy|]. intros z Hz. now apply (cmp_trans x y z).
    + constructor; [exact IH|].
      rewrite insert_perm. constructor; [|exact Hy].
      destruct (cmp_total x y) as [H|H]; [unfold Pure.le in H; lia|exact H].
Qed.

Lemma sort_sorted l : StronglySorted le (sort l).
Proof.
  induction l as [|x l IH]; simpl; [constructor|]. now apply insert_sorted.
Qed.

Lemma sort_idempotent l : sort (sort l) = sort l.
Proof. apply sort_fixed, sort_sorted. Qed.

(** For a consistent comparator the sorted, stable arrangement of a list
    is unique: whatever algorithm an engine runs, as long as its result is
    sorted and stable it is the result of the insertion sort. *)

Lemma tie_le x y : tie x y = true <-> le x y /\ le y x.
Proof.
  unfold Pure.tie, Pure.le. rewrite andb_true_iff, !Z.leb_le. reflexivity.
Qed.

Lemma tie_refl x : tie x x = true.
Proof. apply tie_le. destruct (cmp_total x x); auto. Qed.

Lemma tie_sym x y : tie x y = tie y x.
Proof. unfold Pure.tie. apply andb_comm. Qed.

Lemma tie_trans x y z : tie x y = true -> tie y z = true -> tie x z = true.
Proof. rewrite !tie_le. intros [? ?] [? ?]. split; eapply cmp_trans; eauto. Qed.

Lemma insert_stable x l : stable (x :: l) (insert x l).
Proof.
  intros z. induction l as [|y l IH]; simpl; [reflexivity|].
  destruct (Z.leb_spec (cmp x y) 0) as [Hxy|Hxy]; [reflexivity|].
  rewrite (filter_cons _ y), IH, !(filter_cons _ x), (filter_cons _ y).
  destruct (decide (tie z x = true)) as [Hx|Hx];
    destruct (decide (tie z y = true)) as [Hy|Hy]; try reflexivity.
  exfalso. rewrite tie_sym in Hx. pose proof (tie_trans _ _ _ Hx Hy) as H.
  apply tie_le in H. unfold Pure.le in H. lia.
Qed.

Lemma sort_stable l : stable l (sort l).
Proof.
  intros z. induction l as [|x l IH]; simpl; [reflexivity|].
  rewrite (insert_stable x (sort l) z), !(filter_cons _ x), IH. reflexivity.
Qed.

Lemma sorted_stable_unique l1 : forall l2,
  StronglySorted le l1 -> StronglySorted le l2 -> stable l2 l1 -> l1 = l2.
Proof.
  induction l1 as [|a l1 IH]; intros l2 H1 H2 Hst.
  - destruct l2 as [|b l2]; [reflexivity|].
    specialize (Hst b). rewrite (filter_cons_True _ b) in Hst by apply tie_refl.
    discriminate Hst.
  - destruct l2 as [|b l2].
    { specialize (Hst a). rewrite (filter_cons_True _ a) in Hst by apply tie_refl.
      discriminate Hst. }
    apply StronglySorted_inv in H1. destruct H1 as [H1 Ha].
    apply StronglySorted_inv in H2. destruct H2 as [H2 Hb].
    assert (tie a b = true) as Hab.
    { destruct (tie a b) eqn:E; [reflexivity|exfalso].
      assert (a ∈ l2) as Hin2.
      { pose proof (Hst a) as H. rewrite (filter_cons_True _ a) in H by apply tie_refl.
        rewrite (filter_cons_False _ b) in H by (rewrite E; discriminate).
        assert (a ∈ filter (fun y => tie a y = true) l2) as Hin
          by (rewrite <- H; apply list_elem_of_here).
        apply list_elem_of_filter in Hin. tauto. }
      assert (b ∈ l1) as Hin1.
      { pose proof (Hst b) as H. rewrite (filter_cons_True _ b) in H by apply tie_refl.
        rewrite (filter_cons_False _ a) in H by (rewrite tie_sym, E; discriminate).
        assert (b ∈ filter (fun y => tie b y = true) l1) as Hin
          by (rewrite H; apply list_elem_of_here).
        apply list_elem_of_filter in Hin. tauto. }
      rewrite Forall_forall in Ha, Hb.
      assert (tie a b = true) by (apply tie_le; split; [apply Ha|apply Hb]; assumption).
      congruence. }
    assert (a = b) as <-.
    { pose proof (Hst a) as H. rewrite (filter_cons_True _ a) in H by apply tie_refl.
      rewrite (filter_cons_True _ b) in H by exact Hab. now injection H. }
    f_equal. apply IH; auto. intros x. specialize (Hst x).
    rewrite !(filter_cons _ a) in Hst.
    destruct (decide (tie x a = true)); [now injection Hst|exact Hst].
Qed.

Lemma sort_unique l l' : StronglySorted le l' -> stable l l' -> l' = sort l.
Proof.
  intros Hs Hst. apply sorted_stable_unique; [exact Hs|apply sort_sorted|].
  intros x. rewrite Hst. symmetry. apply sort_stable.
Qed.
End Consistent.
End Pure.

(** The sort with an effectful comparator computes the pure sort whenever
    the comparator, on the elements at hand and in every state, returns
    what a pure comparator returns. *)
Section Effectful.
Context {S A : Type}.
Variable comparefn : A -> A -> M S Z.
Variable cmp : A -> A -> Z.
Variable P : A -> Prop.
Hypothesis comparefn_pure : forall x y st, P x -> P y ->
  exists st', comparefn x y st = (Return (cmp x y), st').

Lemma insert_pure x : forall l st, P x -> Forall P l ->
  exists st', Reconciler.insert comparefn x l st = (Return (Pure.insert cmp x l), st').
Proof.
  induction l as [|y l IH]; intros st Hx Hl; simpl.
  - eexists. reflexivity.
  - apply Forall_cons in Hl. destruct Hl as [Hy Hl].
    destruct (comparefn_pure x y st Hx Hy) as [st1 H1].
    rewrite (bind_Return _ _ _ _ _ H1).
    destruct (cmp x y <=? 0); [eexists; reflexivity|].
    destruct (IH st1 Hx Hl) as [st2 H2].
    rewrite (bind_Return _ _ _ _ _ H2). eexists. reflexivity.
Qed.

Lemma sort_pure : forall l st, Forall P l ->
  exists st', Reconciler.sort comparefn l st = (Return (Pure.sort cmp l), st').
Proof.
  induction l as [|x l IH]; intros st Hl; simpl.
  - eexists. reflexivity.
  - apply Forall_cons in Hl. destruct Hl as [Hx Hl].
    destruct (IH st Hl) as [st1 H1].
    rewrite (bind_Return _ _ _ _ _ H1).
    apply insert_pure; [exact Hx|].
    rewrite (sort_perm cmp l). exact Hl.
Qed.
End Effectful.

(** A comparator that always returns makes the sort return. *)
Section Total.
Context {S A : Type}.
Variable comparefn : A -> A -> M S Z.
Hypothesis comparefn_returns : forall x y st,
  exists c st', comparefn x y st = (Return c, st').

Lemma insert_returns x : forall l st,
  exists l' st', Reconciler.insert comparefn x l st = (Return l', st').
Proof.
  induction l as [|y l IH]; intros st; simpl.
  - do 2 eexists. reflexivity.
  - destruct (comparefn_returns x y st) as (c & st1 & H1).
    rewrite (bind_Return _ _ _ _ _ H1).
    destruct (c <=? 0); [do 2 eexists; reflexivity|].
    destruct (IH st1) as (l' & st2 & H2).
    rewrite (bind_Return _ _ _ _ _ H2). do 2 eexists. reflexivity.
Qed.

Lemma sort_returns : forall l st,
  exists l' st', Reconciler.sort comparefn l st = (Return l', st').
Proof.
  induction l as [|x l IH]; intros st; simpl.
  - do 2 eexists. reflexivity.
  - destruct (IH st) as (l' & st1 & H1).
    rewrite (bind_Return _ _ _ _ _ H1). apply insert_returns.
Qed.
End Total.

End SortFacts.

(** ** The message reconciler *)

Module ReconcilerFacts.
Import Js Reconciler.

Section Extraction.
Variable clock : nat -> Z.
Variable dateParse : string -> option Z.

(** The keys in front of the first one that holds a value are skipped. *)
Lemma probe_skip before : forall rest m,
  (forall k, In k before -> isNullish (get m k) = true) ->
  probe dateParse (before ++ rest) m = probe dateParse rest m.
Proof.
  induction before as [|k before IH]; intros rest m H; simpl; [reflexivity|].
  rewrite (H k) by now left. apply IH. intros k' Hk'. apply H. now right.
Qed.

(** C3, as the code has it.  When the first candidate creation field that is
    present and not null holds a number [v], [pickCreatedMs] returns
    [v * 1000] if [v < 10^12] and [v] itself if [v >= 10^12], without
    reading the clock.  The comparison is on [v], not on its magnitude. *)
Theorem pickCreatedMs_number (m : Object) before k after v st :
  CREATED_KEYS = (before ++ k :: after)%list ->
  (forall k', In k' before -> isNullish (get m k') = true) ->
  get m k = VNumber v ->
  (v < 10 ^ 12 -> pickCreatedMs clock dateParse m st = (Return (v * 1000), st)) /\
  (10 ^ 12 <= v -> pickCreatedMs clock dateParse m st = (Return v, st)).
Proof.
  intros Hkeys Hbefore Hk. unfold pickCreatedMs.
  rewrite Hkeys, (probe_skip before) by exact Hbefore.
  simpl. rewrite Hk. simpl.
  change 1000000000000 with (10 ^ 12).
  split; intros Hv.
  - apply Z.ltb_lt in Hv. now rewrite Hv.
  - apply Z.ltb_ge in Hv. now rewrite Hv.
Qed.

Lemma pickCreatedMs_returns m st :
  exists t st', pickCreatedMs clock dateParse m st = (Return t, st').
Proof.
  unfold pickCreatedMs. destruct (probe _ _ _); do 2 eexists; reflexivity.
Qed.

(** When the message is stamped, or the clock stands at [now], the
    creation time inferred is [stampAt now]. *)
Lemma pickCreatedMs_stampAt now m st :
  Pure.stamped dateParse m \/ (forall k, clock k = now) ->
  exists st', pickCreatedMs clock dateParse m st =
              (Return (Pure.stampAt dateParse now m), st').
Proof.
  unfold pickCreatedMs, Pure.stamped, Pure.stampAt.
  intros [[t Ht]|Hclock].
  - rewrite Ht. eexists. reflexivity.
  - destruct (probe _ _ _); simpl; eexists; [reflexivity|].
    unfold Date_now. rewrite Hclock. reflexivity.
Qed.
End Extraction.

Section Ordering.
Variable clock : nat -> Z.
Variable dateParse : string -> option Z.
Variable dateToString : option Z -> string.
Variable localeCompare : string -> string -> Z.

Local Abbreviation byCreatedAsc :=
  (byCreatedAsc clock dateParse dateToString localeCompare).
Local Abbreviation orderMessages :=
  (orderMessages clock dateParse dateToString localeCompare).
Local Abbreviation compareAt := (Pure.compareAt dateParse dateToString localeCompare).
Local Abbreviation stamped := (Pure.stamped dateParse).
Local Abbreviation settled := (Pure.settled clock dateParse).
Local Abbreviation stampAt := (Pure.stampAt dateParse).
Local Abbreviation idOf := (idOf dateToString).

Lemma byCreatedAsc_returns a b st :
  exists c st', byCreatedAsc a b st = (Return c, st').
Proof.
  unfold Reconciler.byCreatedAsc.
  destruct (pickCreatedMs_returns clock dateParse a st) as (ta & st1 & H1).
  rewrite (bind_Return _ _ _ _ _ H1).
  destruct (pickCreatedMs_returns clock dateParse b st1) as (tb & st2 & H2).
  rewrite (bind_Return _ _ _ _ _ H2).
  destruct (negb _); do 2 eexists; reflexivity.
Qed.

(** The ordering never raises and never runs out of fuel. *)
Lemma orderMessages_returns l st :
  exists sorted st', orderMessages l st = (Return sorted, st').
Proof. apply SortFacts.sort_returns. intros. apply byCreatedAsc_returns. Qed.

Lemma settled_Forall now l :
  settled now l -> Forall (fun m => stamped m \/ (forall k, clock k = now)) l.
Proof.
  intros [H|H].
  - eapply Forall_impl; [exact H|]. intros m Hm. now left.
  - apply Forall_forall. intros m _. now right.
Qed.

Lemma settled_perm now l l' : l ≡ₚ l' -> settled now l -> settled now l'.
Proof. intros Hp [H|H]; [left; now rewrite <- Hp|now right]. Qed.

Lemma byCreatedAsc_compareAt now a b st :
  stamped a \/ (forall k, clock k = now) ->
  stamped b \/ (forall k, clock k = now) ->
  exists st', byCreatedAsc a b st = (Return (compareAt now a b), st').
Proof.
  intros Ha Hb. unfold Reconciler.byCreatedAsc, Pure.compareAt.
  destruct (pickCreatedMs_stampAt clock dateParse now a st Ha) as [st1 H1].
  rewrite (bind_Return _ _ _ _ _ H1).
  destruct (pickCreatedMs_stampAt clock dateParse now b st1 Hb) as [st2 H2].
  rewrite (bind_Return _ _ _ _ _ H2).
  simpl. destruct (negb _); eexists; reflexivity.
Qed.

Lemma orderMessages_sort now l st :
  settled now l ->
  exists st', orderMessages l st = (Return (Pure.sort (compareAt now) l), st').
Proof.
  intros H. unfold Reconciler.orderMessages.
  apply (SortFacts.sort_pure _ (compareAt now)
           (fun m => stamped m \/ (forall k, clock k = now))).
  - intros x y st0 Hx Hy. now apply byCreatedAsc_compareAt.
  - now apply settled_Forall.
Qed.

Lemma compareAt_le now a b :
  Pure.le (compareAt now) a b <->
  stampAt now a < stampAt now b \/
  (stampAt now a = stampAt now b /\ localeCompare (idOf a) (idOf b) <= 0).
Proof.
  unfold Pure.le, Pure.compareAt. simpl.
  destruct (Z.eqb_spec (stampAt now a) (stampAt now b)) as [E|E]; simpl; lia.
Qed.

Section Collation.
(** [localeCompare] is a consistent comparator on strings. *)
Hypothesis localeCompare_total : forall s t,
  localeCompare s t <= 0 \/ localeCompare t s <= 0.
Hypothesis localeCompare_trans : forall s t u,
  localeCompare s t <= 0 -> localeCompare t u <= 0 -> localeCompare s u <= 0.

Lemma compareAt_total now a b :
  Pure.le (compareAt now) a b \/ Pure.le (compareAt now) b a.
Proof.
  rewrite !compareAt_le.
  destruct (localeCompare_total (idOf a) (idOf b)); lia.
Qed.

Lemma compareAt_trans now a b c :
  Pure.le (compareAt now) a b -> Pure.le (compareAt now) b c ->
  Pure.le (compareAt now) a c.
Proof.
  rewrite !compareAt_le. intros [H1|[H1 L1]] [H2|[H2 L2]]; try lia.
  right. split; [lia|]. now apply (localeCompare_trans _ (idOf b)).
Qed.

(** C4, as the code has it.  When the clock does not bear on the comparison
    (every message carries a creation time of its own, or the clock stands
    still), [orderMessages] returns a rearrangement of its input in which
    any two messages with the same inferred creation time stand in
    ascending order of their ids under [localeCompare], the id being
    [String(id ?? _id ?? "")]. *)
Theorem orderMessages_ties now l st :
  settled now l ->
  exists sorted st',
    orderMessages l st = (Return sorted, st') /\ sorted ≡ₚ l /\
    forall i j a b, (i < j)%nat -> sorted !! i = Some a -> sorted !! j = Some b ->
      stampAt now a = stampAt now b ->
      localeCompare (idOf a) (idOf b) <= 0.
Proof.
  intros H. destruct (orderMessages_sort now l st H) as [st' Hs].
  exists (Pure.sort (compareAt now) l), st'.
  split; [exact Hs|]. split; [apply SortFacts.sort_perm|].
  intros i j a b Hij Hi Hj Heq.
  assert (Pure.le (compareAt now) a b) as Hle.
  { eapply SortFacts.sorted_lookup; eauto.
    apply SortFacts.sort_sorted; [apply compareAt_total|apply compareAt_trans]. }
  apply compareAt_le in Hle. lia.
Qed.

(** C8, as the code has it.  When the clock does not bear on the comparison
    (every message carries a creation time of its own, or the clock stands
    still), applying [orderMessages] to its own output returns that output
    again. *)
Theorem orderMessages_idempotent now l st :
  settled now l ->
  exists sorted st1 st2,
    orderMessages l st = (Return sorted, st1) /\
    orderMessages sorted st1 = (Return sorted, st2).
Proof.
  intros H. destruct (orderMessages_sort now l st H) as [st1 H1].
  assert (settled now (Pure.sort (compareAt now) l)) as H'.
  { eapply settled_perm; [|exact H]. symmetry. apply SortFacts.sort_perm. }
  destruct (orderMessages_sort now _ st1 H') as [st2 H2].
  exists (Pure.sort (compareAt now) l), st1, st2. split; [exact H1|].
  rewrite H2. do 2 f_equal.
  apply SortFacts.sort_idempotent; [apply compareAt_total|apply compareAt_trans].
Qed.
End Collation.
End Ordering.

Section Handler.
Variable clock : nat -> Z.
Variable dateParse : string -> option Z.
Variable dateToString : option Z -> string.
Variable localeCompare : string -> string -> Z.
Variable paramSettlesFirst : bool.

Local Abbreviation orderMessages :=
  (orderMessages clock dateParse dateToString localeCompare).
Local Abbreviation messagesHandler :=
  (messagesHandler clock dateParse dateToString localeCompare paramSettlesFirst).

(** A positive number as [limit] keeps the last [limit] entries (all of
    them when there are fewer). *)
Lemma limited_positive n (merged : list Object) :
  0 < n -> limited (VNumber n) merged = drop (length merged - Z.to_nat n) merged.
Proof.
  intros Hn. unfold limited, slice.
  destruct (Z.ltb_spec 0 n); [|lia].
  destruct (Z.ltb_spec (- n) 0); [|lia].
  f_equal. lia.
Qed.

(** Anything else as [limit] keeps the sequence as it is. *)
Lemma limited_otherwise limit (merged : list Object) :
  (forall n, limit = VNumber n -> n <= 0) -> limited limit merged = merged.
Proof.
  intros H. destruct limit as [| | |n| |]; try reflexivity.
  simpl. specialize (H n eq_refl). destruct (Z.ltb_spec 0 n); [lia|reflexivity].
Qed.

(** C10. On the path of the [/node/agent/messages] handler that answers
    200 (service ready, a thread id supplied, both histories fetched), the
    messages of the answer are the merged, ordered sequence cut to its last
    [limit] entries when [limit] is a number greater than zero, and the
    merged, ordered sequence unchanged in every other case: [limit] absent,
    not a number, zero or negative. *)
Theorem messagesHandler_limit ctx body st paramSvc summarySvc rawParam rawSummary :
  ready ctx = true ->
  agentParams ctx = Some paramSvc ->
  agentSummary ctx = Some summarySvc ->
  truthy (paramThreadId body) || truthy (summaryThreadId body) = true ->
  fetchThread paramSvc (paramThreadId body) = Resolved rawParam ->
  fetchThread summarySvc (summaryThreadId body) = Resolved rawSummary ->
  exists merged out st',
    orderMessages (rawParam ++ rawSummary) st = (Return merged, st') /\
    messagesHandler ctx body st =
      (Return {| statusCode := 200;
                 payload := MessagesPayload (coalesce (paramThreadId body) VNull)
                              (coalesce (summaryThreadId body) VNull)
                              (length out) out |}, st') /\
    (forall n, limit body = VNumber n -> 0 < n ->
       out = drop (length merged - Z.to_nat n) merged) /\
    ((forall n, limit body = VNumber n -> n <= 0) -> out = merged).
Proof.
  intros Hready Hparam Hsummary Hids Hp Hs.
  destruct (orderMessages_returns clock dateParse dateToString localeCompare
              (rawParam ++ rawSummary) st) as (merged & st' & Hm).
  exists merged, (limited (limit body) merged), st'.
  split; [exact Hm|]. split; [|split].
  - unfold Reconciler.messagesHandler. rewrite Hready, Hparam, Hsummary.
    replace (negb (truthy (paramThreadId body)) && negb (truthy (summaryThreadId body)))
      with false
      by (destruct (truthy (paramThreadId body)), (truthy (summaryThreadId body));
          simpl in *; congruence).
    unfold tryCatch. rewrite Hp, Hs.
    unfold bind at 1. simpl.
    rewrite (bind_Return _ _ _ _ _ Hm). reflexivity.
  - intros n Hn Hpos. rewrite Hn. now apply limited_positive.
  - apply limited_otherwise.
Qed.
End Handler.

End ReconcilerFacts.

(** *** The reconciler on sample messages *)

Module ReconcilerExamples.
Import Js Reconciler Samples.

Lemma lexCompare_le a b :
  Pure.lexCompare a b <= 0 <-> a = b \/ String_as_OT.lt a b.
Proof.
  unfold Pure.lexCompare.
  destruct (String_as_OT.compare_spec a b) as [E|L|L]; split; try lia; auto.
  intros [->|L']; exfalso.
  - exact (StrictOrder_Irreflexive (R := String_as_OT.lt) b L).
  - apply (StrictOrder_Irreflexive (R := String_as_OT.lt) a).
    exact (StrictOrder_Transitive (R := String_as_OT.lt) a b a L' L).
Qed.

Lemma lexCompare_total a b : Pure.lexCompare a b <= 0 \/ Pure.lexCompare b a <= 0.
Proof.
  rewrite !lexCompare_le.
  destruct (String_as_OT.compare_spec a b) as [E|L|L]; auto.
Qed.

Lemma lexCompare_trans a b c :
  Pure.lexCompare a b <= 0 -> Pure.lexCompare b c <= 0 -> Pure.lexCompare a c <= 0.
Proof.
  rewrite !lexCompare_le. intros [->|L] [->|L']; auto.
  right. exact (StrictOrder_Transitive (R := String_as_OT.lt) a b c L L').
Qed.

(** [{ created_at: 1700000000 }] is read as seconds. *)
Lemma pickCreatedMs_number_witness :
  pickCreatedMs (Doubles.frozen 0) noDateParse inSeconds noCalls =
  (Return 1700000000000, noCalls).
Proof.
  apply (proj1 (ReconcilerFacts.pickCreatedMs_number (Doubles.frozen 0) noDateParse
                  inSeconds [] "created_at"
                  ["createdAt"; "created"; "createTime"; "timestamp"]
                  1700000000 noCalls eq_refl
                  (fun k (H : In k []) => match H with end) eq_refl)).
  reflexivity.
Defined.

(** [{ createdAt: 1700000000000 }] is read as milliseconds. *)
Example pickCreatedMs_millis :
  pickCreatedMs (Doubles.frozen 0) noDateParse inMillis noCalls =
  (Return 1700000000000, noCalls).
Proof. reflexivity. Qed.

(** C3 as stated fails on a negative number of large magnitude: it is
    multiplied by 1000, not returned unchanged. *)
Lemma pickCreatedMs_number_counterexample :
  get before1970 "created_at" = VNumber (-2000000000000) /\
  10 ^ 12 <= Z.abs (-2000000000000) /\
  pickCreatedMs (Doubles.frozen 0) noDateParse before1970 noCalls =
  (Return (-2000000000000000), noCalls).
Proof. split; [reflexivity | split; [vm_compute; discriminate | reflexivity]]. Qed.

(** Messages created in the same second come out in the order of their
    ids. *)
Lemma orderMessages_ties_witness :
  exists sorted st',
    orderMessages (Doubles.frozen 0) noDateParse noDateString Pure.lexCompare
      Deployment.history noCalls = (Return sorted, st') /\
    sorted ≡ₚ Deployment.history /\
    forall i j a b, (i < j)%nat -> sorted !! i = Some a -> sorted !! j = Some b ->
      Pure.stampAt noDateParse 0 a = Pure.stampAt noDateParse 0 b ->
      Pure.lexCompare (idOf noDateString a) (idOf noDateString b) <= 0.
Proof.
  apply (ReconcilerFacts.orderMessages_ties (Doubles.frozen 0) noDateParse noDateString
           Pure.lexCompare lexCompare_total lexCompare_trans 0 Deployment.history noCalls).
  left. repeat constructor; eexists; reflexivity.
Defined.

Example orderMessages_history :
  orderMessages (Doubles.frozen 0) noDateParse noDateString Pure.lexCompare
    Deployment.history noCalls =
  (Return [stampedMessage "m1" 1700000000; stampedMessage "m2" 1700000000;
           stampedMessage "m3" 1700000000], noCalls).
Proof. reflexivity. Qed.

(** C4 as stated fails.  Three messages stamped with the same second, ids
    [b], [a] and [c], and after the first of them a message without a
    creation field.  The clock passes the creation time of the three while
    the sort runs: one comparison finds the bare message older than a
    stamped one, the next finds it younger than another, and the stamped
    messages on either side of it are never compared with each other.
    [b] is left in front of [a].  The second sort compares in another order
    and leaves [c] in front of [b]. *)
Lemma orderMessages_ties_counterexample :
  let b := stampedMessage "b" 5 in
  let n := bareMessage "n" in
  let a := stampedMessage "a" 5 in
  let c := stampedMessage "c" 5 in
  let clock := Doubles.readings [3000; 7000] in
  (forall st m, In m [a; b; c] ->
     pickCreatedMs clock noDateParse m st = (Return 5000, st)) /\
  0 < Pure.lexCompare (idOf noDateString b) (idOf noDateString a) /\
  0 < Pure.lexCompare (idOf noDateString c) (idOf noDateString b) /\
  orderMessages clock noDateParse noDateString Pure.lexCompare [b; n; a; c] noCalls =
  (Return [b; n; a; c],
   {| nows := 2; appends := 0; creates := 0; gets := 0; sleeps := 0 |}) /\
  sortRuns (byCreatedAsc clock noDateParse noDateString Pure.lexCompare)
    [b; n; a; c] noCalls =
  (Return [a; c; n; b],
   {| nows := 3; appends := 0; creates := 0; gets := 0; sleeps := 0 |}).
Proof.
  repeat split.
  intros st m [<-|[<-|[<-|[]]]]; reflexivity.
Qed.

(** Sorting twice what is stamped gives what sorting once gives. *)
Lemma orderMessages_idempotent_witness :
  exists sorted st1 st2,
    orderMessages (Doubles.readings [3000; 7000]) noDateParse noDateString
      Pure.lexCompare Deployment.history noCalls = (Return sorted, st1) /\
    orderMessages (Doubles.readings [3000; 7000]) noDateParse noDateString
      Pure.lexCompare sorted st1 = (Return sorted, st2).
Proof.
  apply (ReconcilerFacts.orderMessages_idempotent (Doubles.readings [3000; 7000])
           noDateParse noDateString Pure.lexCompare lexCompare_total lexCompare_trans
           0 Deployment.history noCalls).
  left. repeat constructor; eexists; reflexivity.
Defined.

(** C8 as stated fails.  A message stamped with second 2000 and a message
    without a creation field, ordered once when the clock reads 1000000 ms
    and once more when it reads 3000000 ms: the bare message is older than
    the stamped one the first time and younger the second time. *)
Lemma orderMessages_idempotent_counterexample :
  let x := stampedMessage "x" 2000 in
  let y := bareMessage "y" in
  let clock := Doubles.readings [1000000; 3000000] in
  let once := {| nows := 1; appends := 0; creates := 0; gets := 0; sleeps := 0 |} in
  let twice := {| nows := 2; appends := 0; creates := 0; gets := 0; sleeps := 0 |} in
  orderMessages clock noDateParse noDateString Pure.lexCompare [x; y] noCalls =
    (Return [y; x], once) /\
  orderMessages clock noDateParse noDateString Pure.lexCompare [y; x] once =
    (Return [x; y], twice) /\
  [x; y] <> [y; x].
Proof.
  repeat split. intros H.
  apply (f_equal (fun l : list Object => (l !! 0%nat) ≫= (.!! "created_at"))) in H.
  discriminate H.
Qed.

(** The handler with [limit: 2] on three messages. *)
Lemma messagesHandler_limit_witness :
  exists merged out st',
    orderMessages (Doubles.frozen 0) noDateParse noDateString Pure.lexCompare
      (Deployment.history ++ []) noCalls = (Return merged, st') /\
    messagesHandler (Doubles.frozen 0) noDateParse noDateString Pure.lexCompare true
      Deployment.readyCtx Deployment.lastTwo noCalls =
      (Return {| statusCode := 200;
                 payload := MessagesPayload (VString "thread_1") VNull
                              (length out) out |}, st') /\
    (forall n, VNumber 2 = VNumber n -> 0 < n ->
       out = drop (length merged - Z.to_nat n) merged) /\
    ((forall n, VNumber 2 = VNumber n -> n <= 0) -> out = merged).
Proof.
  apply (ReconcilerFacts.messagesHandler_limit (Doubles.frozen 0) noDateParse
           noDateString Pure.lexCompare true Deployment.readyCtx Deployment.lastTwo noCalls
           Deployment.listHistory Deployment.listHistory Deployment.history []);
    reflexivity.
Defined.

Example messagesHandler_lastTwo :
  messagesHandler (Doubles.frozen 0) noDateParse noDateString Pure.lexCompare true
    Deployment.readyCtx Deployment.lastTwo noCalls =
  (Return {| statusCode := 200;
             payload := MessagesPayload (VString "thread_1") VNull 2
                          [stampedMessage "m2" 1700000000;
                           stampedMessage "m3" 1700000000] |}, noCalls).
Proof. reflexivity. Qed.

End ReconcilerExamples.

(** ** The credential provider *)

Module AuthFacts.
Import Auth.

Section Provider.
Variable clock : nat -> Z.
Variable axios_post : nat -> string -> list (string * string) -> Reply (option TokenData).

Local Abbreviation getToken := (getToken clock axios_post).
Local Abbreviation getTokens := (getTokens clock axios_post).
Local Abbreviation fresh := (Pure.fresh clock).
Local Abbreviation remainingMs := (Pure.remainingMs clock).
Local Abbreviation margin := (Pure.margin clock axios_post).

(** A fresh cache answers the call: no exchange, cache untouched. *)
Lemma getToken_fresh config st :
  fresh st = true ->
  getToken config st =
  (Return (Some {| accessToken := cachedToken st; expiresAt := tokenExpireAt st |}),
   {| cachedToken := cachedToken st; tokenExpireAt := tokenExpireAt st;
      clockReads := S (clockReads st); posts := posts st |}).
Proof.
  unfold Pure.fresh, Auth.getToken. intros H.
  unfold bind at 1. unfold Date_now at 1. unfold bind at 1. simpl.
  rewrite H. reflexivity.
Qed.

(** A cache that is not fresh sends the call to the exchange, once. *)
Lemma getToken_stale config st r st' :
  fresh st = false ->
  getToken config st = (r, st') ->
  posts st' = S (posts st) /\ exists result, r = Return result.
Proof.
  unfold Pure.fresh, Auth.getToken. intros H.
  unfold bind at 1. unfold Date_now at 1. unfold bind at 1. simpl.
  rewrite H. unfold tryCatch, bind at 1, call_axios_post at 1. simpl.
  destruct (axios_post _ _ _) as [[data|]|reason]; simpl.
  - unfold bind, writeCache, toISOString. simpl.
    destruct (Js.timeClip _); simpl; intros [= <- <-]; simpl; eauto.
  - intros [= <- <-]. simpl. eauto.
  - intros [= <- <-]. simpl. eauto.
Qed.

(** The guard compares whole seconds; read on the millisecond clock it
    lets a token through only with more than 60 s left. *)
Lemma fresh_remaining st : fresh st = true -> 60000 < remainingMs st.
Proof.
  unfold Pure.fresh, Pure.remainingMs. intros H.
  apply andb_true_iff in H. destruct H as [_ H]. apply Z.ltb_lt in H.
  pose proof (Z.mod_pos_bound (clock (clockReads st)) 1000 ltac:(lia)).
  pose proof (Z.div_mod (clock (clockReads st)) 1000 ltac:(lia)).
  lia.
Qed.

(** What a call that goes to the exchange returns is read off the reply of
    the exchange and the second of the call; the cache does not enter. *)
Lemma getToken_exchanged config st r st' :
  fresh st = false ->
  getToken config st = (r, st') ->
  r = Return (Pure.exchanged (clock (clockReads st) / 1000)
                (axios_post (posts st) (Pure.endpointOf config)
                   (Pure.paramsOf config))).
Proof.
  unfold Pure.fresh, Pure.exchanged, Pure.endpointOf, Pure.paramsOf, Auth.getToken.
  intros H.
  unfold bind at 1. unfold Date_now at 1. unfold bind at 1. simpl.
  rewrite H. unfold tryCatch, bind at 1, call_axios_post at 1. simpl.
  destruct (axios_post _ _ _) as [[data|]|reason]; simpl.
  - unfold bind, writeCache, toISOString. simpl.
    destruct (Js.timeClip _); simpl; intros [= <- <-]; reflexivity.
  - intros [= <- <-]. reflexivity.
  - intros [= <- <-]. reflexivity.
Qed.

Lemma getToken_margin config st :
  margin config (st, fst (getToken config st), snd (getToken config st)).
Proof.
  unfold Pure.margin. destruct (fresh st) eqn:F.
  - rewrite (getToken_fresh config st F). simpl.
    pose proof (fresh_remaining st F). split; [intros _; split; [lia|reflexivity]|lia].
  - destruct (getToken config st) as [r st'] eqn:G. simpl.
    destruct (getToken_stale config st r st' F G) as [Hp _].
    pose proof (getToken_exchanged config st r st' F G) as Hr.
    split; [lia|intros _; split; [exact Hp|exact Hr]].
Qed.

(** C5. Along every sequence of [getToken] calls, from any state of the
    cache, each call taken with its configuration: a call that is answered
    without an exchange returns the cached token, and that token had at
    least 60 seconds of validity left at the time of the call; and a call
    that finds less than 60 seconds left goes to the exchange and returns
    what the exchange gives -- the token of its reply, with the expiry
    counted from the second of the call, or [null] --, never the token the
    cache held. *)
Theorem getTokens_margin configs : forall st,
  Forall2 margin configs (getTokens configs st).
Proof.
  induction configs as [|config configs IH]; intros st; simpl; [constructor|].
  pose proof (getToken_margin config st) as H.
  destruct (getToken config st) as [r st']. constructor; [exact H|apply IH].
Qed.

(** C6. A call that goes to the exchange and whose exchange fails (the
    request is rejected, or the response carries no data) returns [null],
    raises nothing, and leaves [cachedToken] and [tokenExpireAt] as they
    were. *)
Theorem getToken_failed_exchange config st :
  fresh st = false ->
  (forall endpoint params,
     Pure.failedExchange (axios_post (posts st) endpoint params) = true) ->
  getToken config st =
  (Return None,
   {| cachedToken := cachedToken st; tokenExpireAt := tokenExpireAt st;
      clockReads := S (clockReads st); posts := S (posts st) |}).
Proof.
  unfold Pure.fresh, Auth.getToken. intros H Hfail.
  unfold bind at 1. unfold Date_now at 1. unfold bind at 1. simpl.
  rewrite H. unfold tryCatch, bind at 1, call_axios_post at 1. simpl.
  match goal with |- context [axios_post ?k ?e ?p] =>
    specialize (Hfail e p); destruct (axios_post k e p) as [[data|]|reason] end;
    simpl in *; [discriminate|reflexivity|reflexivity].
Qed.

End Provider.
End AuthFacts.

(** *** The credential provider on sample endpoints *)

Module AuthExamples.
Import Auth.

(** The endpoint is down ten seconds before the cached token expires: the
    call returns [null] and the cache still holds the old token. *)
Lemma getToken_failed_exchange_witness :
  getToken (Doubles.frozen 990000) Identity.down Identity.config Identity.holding =
  (Return None,
   {| cachedToken := Some "old"; tokenExpireAt := 1000; clockReads := 1; posts := 1 |}).
Proof.
  apply (AuthFacts.getToken_failed_exchange (Doubles.frozen 990000) Identity.down
           Identity.config Identity.holding); reflexivity.
Defined.

(** With exactly 60 seconds left the token is not reused: the guard is
    strict. *)
Example getToken_at_margin :
  getToken (Doubles.frozen 940000) Identity.issuing Identity.config Identity.holding =
  (Return (Some {| accessToken := Some "tok"; expiresAt := 4540 |}),
   {| cachedToken := Some "tok"; tokenExpireAt := 4540; clockReads := 1; posts := 1 |}).
Proof. reflexivity. Qed.

(** With 61 seconds left it is. *)
Example getToken_above_margin :
  getToken (Doubles.frozen 939000) Identity.issuing Identity.config Identity.holding =
  (Return (Some {| accessToken := Some "old"; expiresAt := 1000 |}),
   {| cachedToken := Some "old"; tokenExpireAt := 1000; clockReads := 1; posts := 0 |}).
Proof. reflexivity. Qed.

(** Not a failed exchange, and yet [null]: when the expiry is out of the
    range of [Date], the log line raises after the cache has been written;
    the [catch] turns that into [null]. *)
Example getToken_log_raises :
  getToken (Doubles.frozen 990000) Identity.overlong Identity.config Identity.holding =
  (Return None,
   {| cachedToken := Some "tok"; tokenExpireAt := 10000000000990;
      clockReads := 1; posts := 1 |}).
Proof. reflexivity. Qed.

(** Ten seconds before the cached token expires, with the endpoint
    issuing: the call returns the new token, not the one it held. *)
Example getToken_below_margin :
  getToken (Doubles.frozen 990000) Identity.issuing Identity.config Identity.holding =
  (Return (Some {| accessToken := Some "tok"; expiresAt := 4590 |}),
   {| cachedToken := Some "tok"; tokenExpireAt := 4590; clockReads := 1; posts := 1 |}).
Proof. reflexivity. Qed.

(** Two calls in a row on an empty cache: one exchange. *)
Example getTokens_twice :
  map (fun step => posts (snd step))
    (getTokens (Doubles.frozen 0) Identity.issuing [Identity.config; Identity.config]
       initial) = [1; 1]%nat.
Proof. reflexivity. Qed.

End AuthExamples.

(** ** More on the run orchestrator *)

Module AgentMore.
Import Agent.

Section Orchestrator.
Variable clock : nat -> Z.
Variable client : Client.
Variable agentId : string.

Local Abbreviation poll := (poll clock client).
Local Abbreviation appendAndRun := (appendAndRun clock client agentId).

(** A pending status leaves the loop only through the deadline test. *)
Lemma poll_pending_deadline fuel threadId run pollMs end_ :
  forall cur st cur' st',
    poll fuel threadId run pollMs end_ cur st = (Return cur', st') ->
    pending cur' = true ->
    (nows st < nows st')%nat /\ end_ <= clock (nows st' - 1).
Proof.
  induction fuel as [|fuel IH]; intros cur st cur' st'; simpl.
  - destruct (pending cur) eqn:Hp; [|intros [= <- <-]; congruence].
    unfold bind, Date_now. destruct (Z.ltb_spec (clock (nows st)) end_);
      [discriminate|].
    intros [= <- <-] _. simpl. rewrite Nat.sub_0_r. split; [lia|assumption].
  - destruct (pending cur) eqn:Hp; [|intros [= <- <-]; congruence].
    unfold bind at 1. unfold Date_now at 1.
    destruct (Z.ltb_spec (clock (nows st)) end_).
    + unfold bind at 1. unfold sleep at 1.
      unfold bind at 1. unfold call_runs_get at 1. simpl.
      destruct (runs_get client _ _ _) as [cur1|reason]; simpl; [|discriminate].
      intros Hrec Hp'. destruct (IH _ _ _ _ Hrec Hp') as [Hn He]. simpl in Hn.
      split; [lia|exact He].
    + intros [= <- <-] _. simpl. rewrite Nat.sub_0_r. split; [lia|assumption].
Qed.

(** In the loop every delay is followed by one status read. *)
Lemma poll_reads_delays fuel threadId run pollMs end_ :
  forall cur st r st',
    poll fuel threadId run pollMs end_ cur st = (r, st') ->
    (gets st' + sleeps st = gets st + sleeps st')%nat.
Proof.
  induction fuel as [|fuel IH]; intros cur st r st'; simpl.
  - destruct (pending cur); [|intros [= <- <-]; lia].
    unfold bind, Date_now. destruct (_ <? _); intros [= <- <-]; simpl; lia.
  - destruct (pending cur); [|intros [= <- <-]; lia].
    unfold bind at 1. unfold Date_now at 1.
    destruct (_ <? _); [|intros [= <- <-]; simpl; lia].
    unfold bind at 1. unfold sleep at 1.
    unfold bind at 1. unfold call_runs_get at 1. simpl.
    destruct (runs_get client _ _ _) as [cur'|reason]; simpl.
    + intros H. apply IH in H. simpl in H. lia.
    + intros [= <- <-]. simpl. lia.
Qed.

(** Whatever [appendAndRun] returns comes from a run the loop ended on,
    that run is not [failed], and the loop started right after the clock
    read that fixed the deadline. *)
Lemma appendAndRun_Return fuel threadId message pollMs timeoutMs st res st' :
  appendAndRun fuel threadId message pollMs timeoutMs st = (Return res, st') ->
  exists run cur0 cur,
    runs_get client (gets st) threadId (id run) = Resolved cur0 /\
    poll fuel threadId (id run) (default 1000 pollMs)
      (clock (nows st) + default 120000 timeoutMs) cur0 (Pure.started st)
    = (Return cur, st') /\
    String.eqb (status cur) "failed" = false /\
    res = {| runId := id cur; resultStatus := status cur |}.
Proof.
  unfold Agent.appendAndRun.
  destruct (String.eqb (Js.trim message) ""); [discriminate|].
  unfold bind at 1. unfold call_messages_create at 1.
  destruct (messages_create client _ _ _ _) as [[]|reason]; simpl; [|discriminate].
  unfold bind at 1. unfold call_runs_create at 1. simpl.
  destruct (runs_create client _ _ _) as [run|reason]; simpl; [|discriminate].
  unfold bind at 1. unfold Date_now at 1. simpl.
  unfold bind at 1. unfold call_runs_get at 1. simpl.
  destruct (runs_get client _ _ _) as [cur0|reason] eqn:Hget; simpl; [|discriminate].
  unfold bind.
  destruct (Agent.poll _ _ _ _ _ _ _ _ _) as [[cur| |] st1] eqn:Hpoll;
    try discriminate.
  destruct (String.eqb (status cur) "failed") eqn:Hf; [discriminate|].
  intros [= <- <-]. exists run, cur0, cur. repeat split; auto.
Qed.

(** X1. [appendAndRun] never hands back a result whose status is
    [failed]: a run that ends on [failed] is raised, not returned. *)
Theorem appendAndRun_never_returns_failed fuel threadId message pollMs timeoutMs st res st' :
  appendAndRun fuel threadId message pollMs timeoutMs st = (Return res, st') ->
  resultStatus res <> "failed".
Proof.
  intros H. apply appendAndRun_Return in H.
  destruct H as (run & cur0 & cur & _ & _ & Hf & ->). simpl.
  intros E. rewrite E in Hf. discriminate.
Qed.

(** X2. A result whose status is still [queued] or [in_progress] means
    that the timeout has run out: the last clock read of the invocation
    found the deadline (the clock read after the run creation plus
    [timeoutMs]) reached. *)
Theorem appendAndRun_pending_means_timeout fuel threadId message pollMs timeoutMs st res st' :
  appendAndRun fuel threadId message pollMs timeoutMs st = (Return res, st') ->
  resultStatus res = "queued" \/ resultStatus res = "in_progress" ->
  (nows st + 2 <= nows st')%nat /\
  clock (nows st) + default 120000 timeoutMs <= clock (nows st' - 1).
Proof.
  intros H Hs. apply appendAndRun_Return in H.
  destruct H as (run & cur0 & cur & _ & Hpoll & _ & ->). simpl in Hs.
  apply poll_pending_deadline in Hpoll.
  - simpl in Hpoll. destruct Hpoll as [Hn He]. split; [lia|exact He].
  - unfold pending. destruct Hs as [-> | ->]; reflexivity.
Qed.

(** X3. When the append and the run creation succeed, the status reads
    and the delays alternate: however the invocation ends (result, error
    or no fuel left), it has issued exactly one status read more than it
    has slept. *)
Theorem appendAndRun_reads_and_delays fuel threadId message pollMs timeoutMs st run r st' :
  Js.blank message = false ->
  messages_create client (appends st) threadId "user" message = Resolved tt ->
  runs_create client (creates st) threadId agentId = Resolved run ->
  appendAndRun fuel threadId message pollMs timeoutMs st = (r, st') ->
  (gets st' - gets st = sleeps st' - sleeps st + 1)%nat.
Proof.
  intros Hmsg Happend Hcreate Hrun.
  destruct (runs_get client (gets st) threadId (id run)) as [cur|reason] eqn:Hget.
  - rewrite (AgentFacts.appendAndRun_started _ _ _ _ _ _ _ _ _ run cur) in Hrun by auto.
    destruct (Agent.poll _ _ _ _ _ _ _ _ _) as [r1 st1] eqn:Hpoll.
    pose proof (poll_reads_delays _ _ _ _ _ _ _ _ _ Hpoll) as Hrd.
    pose proof (AgentFacts.poll_counters _ _ _ _ _ _ _ _ _ _ _ Hpoll)
      as (_ & _ & Hg & Hs).
    assert (st' = st1) as ->.
    { unfold Pure.conclude in Hrun. destruct r1; [destruct (String.eqb _ _)| |];
        now inversion Hrun. }
    simpl in *. lia.
  - revert Hrun. unfold Agent.appendAndRun. rewrite JsFacts.trim_eqb, Hmsg.
    unfold bind at 1. unfold call_messages_create at 1. rewrite Happend. simpl.
    unfold bind at 1. unfold call_runs_create at 1. simpl. rewrite Hcreate. simpl.
    unfold bind at 1. unfold Date_now at 1. simpl.
    unfold bind at 1. unfold call_runs_get at 1. simpl. rewrite Hget. simpl.
    intros [= <- <-]. simpl. lia.
Qed.

(** X4. A rejection by the remote service is passed on as it is, and
    nothing is called after it: a rejected append leaves the run
    uncreated, a rejected run creation leaves the appended message without
    a run, a rejected first status read leaves the run unobserved. *)
Theorem appendAndRun_rejections fuel threadId message pollMs timeoutMs st :
  Js.blank message = false ->
  (forall reason,
     messages_create client (appends st) threadId "user" message = Rejected reason ->
     appendAndRun fuel threadId message pollMs timeoutMs st =
     (Throw (Rejection reason),
      {| nows := nows st; appends := S (appends st); creates := creates st;
         gets := gets st; sleeps := sleeps st |})) /\
  (forall reason,
     messages_create client (appends st) threadId "user" message = Resolved tt ->
     runs_create client (creates st) threadId agentId = Rejected reason ->
     appendAndRun fuel threadId message pollMs timeoutMs st =
     (Throw (Rejection reason),
      {| nows := nows st; appends := S (appends st); creates := S (creates st);
         gets := gets st; sleeps := sleeps st |})) /\
  (forall run reason,
     messages_create client (appends st) threadId "user" message = Resolved tt ->
     runs_create client (creates st) threadId agentId = Resolved run ->
     runs_get client (gets st) threadId (id run) = Rejected reason ->
     appendAndRun fuel threadId message pollMs timeoutMs st =
     (Throw (Rejection reason), Pure.started st)).
Proof.
  intros Hmsg. unfold Agent.appendAndRun. rewrite JsFacts.trim_eqb, Hmsg.
  split; [|split].
  - intros reason Ha. unfold bind at 1. unfold call_messages_create at 1.
    rewrite Ha. reflexivity.
  - intros reason Ha Hc. unfold bind at 1. unfold call_messages_create at 1.
    rewrite Ha. simpl. unfold bind at 1. unfold call_runs_create at 1. simpl.
    rewrite Hc. reflexivity.
  - intros run reason Ha Hc Hg. unfold bind at 1. unfold call_messages_create at 1.
    rewrite Ha. simpl. unfold bind at 1. unfold call_runs_create at 1. simpl.
    rewrite Hc. simpl. unfold bind at 1. unfold Date_now at 1. simpl.
    unfold bind at 1. unfold call_runs_get at 1. simpl. rewrite Hg. reflexivity.
Qed.

(** X5. The run settles at read [n] (the reads before it pending, the
    deadline ahead at each of their loop tests): a status [failed] is
    raised as [run failed: <lastError>], and any other status that is not
    pending ([completed], and also [cancelled], [expired],
    [requires_action], ...) is returned as it is.  Either way [n + 1]
    status reads and [n] delays have been made. *)
Theorem appendAndRun_settles fuel threadId message pollMs timeoutMs st run reads n :
  Js.blank message = false ->
  messages_create client (appends st) threadId "user" message = Resolved tt ->
  runs_create client (creates st) threadId agentId = Resolved run ->
  (forall k, (k <= n)%nat ->
     runs_get client (gets st + k) threadId (id run) = Resolved (reads k)) ->
  (forall k, (k < n)%nat -> pending (reads k) = true) ->
  pending (reads n) = false ->
  (forall k, (k < n)%nat ->
     clock (S (nows st) + k) < clock (nows st) + default 120000 timeoutMs) ->
  (n <= fuel)%nat ->
  appendAndRun fuel threadId message pollMs timeoutMs st =
  (if String.eqb (status (reads n)) "failed"
   then Throw (JsError ("run failed: " +:+ lastError (reads n)))
   else Return {| runId := id (reads n); resultStatus := status (reads n) |},
   {| nows := (nows st + n + 1)%nat; appends := S (appends st);
      creates := S (creates st); gets := (gets st + n + 1)%nat;
      sleeps := (sleeps st + n)%nat |}).
Proof.
  intros Hmsg Happend Hcreate Hreads Hpend Hdone Hearly Hfuel.
  rewrite (AgentFacts.appendAndRun_started _ _ _ _ _ _ _ _ _ run (reads 0%nat)); auto.
  2:{ rewrite <- (Hreads 0%nat) by lia. f_equal. lia. }
  rewrite (AgentFacts.poll_iterate clock client threadId (id run) (default 1000 pollMs) _
             reads (gets st) (S (nows st)) n) with (d := n) (j := 0%nat);
    simpl; auto; try lia.
  rewrite AgentFacts.poll_settled by exact Hdone.
  unfold Pure.conclude.
  destruct (String.eqb (status (reads n)) "failed"); do 2 f_equal; lia.
Qed.

End Orchestrator.
End AgentMore.

Module AgentMoreExamples.
Import Agent.

Lemma appendAndRun_never_returns_failed_witness :
  resultStatus {| runId := "run_1"; resultStatus := "completed" |} <> "failed".
Proof.
  apply (AgentMore.appendAndRun_never_returns_failed (Doubles.sleeping 1000)
           Doubles.threeReads "agent" 2 "thread" "hello" None None noCalls
           {| runId := "run_1"; resultStatus := "completed" |}
           {| nows := 3; appends := 1; creates := 1; gets := 3; sleeps := 2 |}).
  reflexivity.
Defined.

(** The run that never leaves [queued], under a timeout of 3000 ms: the
    fifth clock read is the one that finds the deadline reached. *)
Lemma appendAndRun_pending_means_timeout_witness :
  (0 + 2 <= 5)%nat /\ Doubles.sleeping 1000 0 + 3000 <= Doubles.sleeping 1000 (5 - 1).
Proof.
  apply (AgentMore.appendAndRun_pending_means_timeout (Doubles.sleeping 1000)
           Doubles.neverLeavesQueued "agent" 3 "thread" "hello" (Some 1000) (Some 3000)
           noCalls {| runId := "run_1"; resultStatus := "queued" |}
           {| nows := 5; appends := 1; creates := 1; gets := 4; sleeps := 3 |}).
  - reflexivity.
  - left. reflexivity.
Defined.

Lemma appendAndRun_reads_and_delays_witness :
  (4 - 0 = 3 - 0 + 1)%nat.
Proof.
  apply (AgentMore.appendAndRun_reads_and_delays (Doubles.sleeping 1000)
           Doubles.neverLeavesQueued "agent" 3 "thread" "hello" (Some 1000) (Some 3000)
           noCalls Doubles.queuedRun
           (Return {| runId := "run_1"; resultStatus := "queued" |})
           {| nows := 5; appends := 1; creates := 1; gets := 4; sleeps := 3 |});
    reflexivity.
Defined.

Lemma appendAndRun_rejections_witness :
  appendAndRun (Doubles.frozen 0) Doubles.unavailable "agent" 5 "thread" "hello"
    None None noCalls =
  (Throw (Rejection "ECONNREFUSED"),
   {| nows := 0; appends := 1; creates := 0; gets := 0; sleeps := 0 |}).
Proof.
  apply (proj1 (AgentMore.appendAndRun_rejections (Doubles.frozen 0) Doubles.unavailable
                  "agent" 5 "thread" "hello" None None noCalls eq_refl)).
  reflexivity.
Defined.

(** A run that fails at the second read. *)
Lemma appendAndRun_settles_witness :
  appendAndRun (Doubles.sleeping 1000) Fixtures.failing "agent" 1 "thread" "hello"
    None None noCalls =
  (Throw (JsError "run failed: null"),
   {| nows := 2; appends := 1; creates := 1; gets := 2; sleeps := 1 |}).
Proof.
  apply (AgentMore.appendAndRun_settles (Doubles.sleeping 1000) Fixtures.failing
           "agent" 1 "thread" "hello" None None noCalls Doubles.queuedRun
           (fun k => match k with O => Doubles.inProgress | _ => Fixtures.failedRun end) 1).
  - reflexivity.
  - reflexivity.
  - reflexivity.
  - intros k _. destruct k as [|[|[|k]]]; reflexivity.
  - intros k Hk. destruct k; [reflexivity|lia].
  - reflexivity.
  - intros k Hk. destruct k; [reflexivity|lia].
  - lia.
Defined.

End AgentMoreExamples.

(** ** More on the message reconciler *)

Module ReconcilerMore.
Import Js Reconciler.

Section Ordering.
Variable clock : nat -> Z.
Variable dateParse : string -> option Z.
Variable dateToString : option Z -> string.
Variable localeCompare : string -> string -> Z.

Local Abbreviation orderMessages :=
  (orderMessages clock dateParse dateToString localeCompare).
Local Abbreviation pickCreatedMs := (pickCreatedMs clock dateParse).
Local Abbreviation compareAt := (Pure.compareAt dateParse dateToString localeCompare).
Local Abbreviation settled := (Pure.settled clock dateParse).
Local Abbreviation stampAt := (Pure.stampAt dateParse).
Local Abbreviation unusable := (Notions.unusable dateParse).

(** The keys in front of the first usable one are passed over. *)
Lemma probe_pass before : forall rest m,
  (forall k, In k before -> unusable (get m k)) ->
  probe dateParse (before ++ rest) m = probe dateParse rest m.
Proof.
  induction before as [|k before IH]; intros rest m H; simpl; [reflexivity|].
  rewrite IH by (intros k' Hk'; apply H; now right).
  destruct (H k ltac:(now left)) as [Hn|[Hnum Ht]]; [now rewrite Hn|].
  destruct (isNullish (get m k)); [reflexivity|].
  destruct (get m k); try discriminate; simpl in *; now rewrite ?Ht.
Qed.

(** X7. The first candidate field that holds something usable decides:
    fields in front of it that are absent, [null], or that hold a string
    or date without a finite time are passed over, and when the field
    holds a date or a string with time [t], [pickCreatedMs] returns [t]
    and does not read the clock. *)
Theorem pickCreatedMs_first_usable (m : Object) before k after v t st :
  CREATED_KEYS = (before ++ k :: after)%list ->
  (forall k', In k' before -> unusable (get m k')) ->
  get m k = v -> isNullish v = false -> isNumber v = false ->
  getTime dateParse v = Some t ->
  pickCreatedMs m st = (Return t, st).
Proof.
  intros Hkeys Hbefore Hk Hnull Hnum Ht. unfold Reconciler.pickCreatedMs.
  rewrite Hkeys, (probe_pass before) by exact Hbefore.
  simpl. rewrite Hk, Hnull.
  destruct v; try discriminate; simpl in *;
    first [rewrite Ht | injection Ht as <-]; reflexivity.
Qed.

(** X8. When no candidate field holds anything usable, [pickCreatedMs]
    returns the reading of the clock, which it reads once: the same
    message gets another creation time at every call. *)
Theorem pickCreatedMs_fallback (m : Object) st :
  (forall k, In k CREATED_KEYS -> unusable (get m k)) ->
  pickCreatedMs m st =
  (Return (clock (nows st)),
   {| nows := S (nows st); appends := appends st; creates := creates st;
      gets := gets st; sleeps := sleeps st |}).
Proof.
  intros H. unfold Reconciler.pickCreatedMs.
  rewrite <- (app_nil_r CREATED_KEYS), (probe_pass CREATED_KEYS [] m H).
  reflexivity.
Qed.

Section Collation.
Hypothesis localeCompare_total : forall s t,
  localeCompare s t <= 0 \/ localeCompare t s <= 0.
Hypothesis localeCompare_trans : forall s t u,
  localeCompare s t <= 0 -> localeCompare t u <= 0 -> localeCompare s u <= 0.

(** X9. When the clock does not bear on the comparison, the messages
    come out in ascending order of their inferred creation times. *)
Theorem orderMessages_ascending now l st :
  settled now l ->
  exists sorted st',
    orderMessages l st = (Return sorted, st') /\
    forall i j a b, (i < j)%nat -> sorted !! i = Some a -> sorted !! j = Some b ->
      stampAt now a <= stampAt now b.
Proof.
  intros H.
  destruct (ReconcilerFacts.orderMessages_sort clock dateParse dateToString
              localeCompare now l st H) as [st' Hs].
  exists (Pure.sort (compareAt now) l), st'. split; [exact Hs|].
  intros i j a b Hij Hi Hj.
  assert (Pure.le (compareAt now) a b) as Hle.
  { eapply SortFacts.sorted_lookup; eauto.
    apply SortFacts.sort_sorted;
      [apply ReconcilerFacts.compareAt_total|apply ReconcilerFacts.compareAt_trans];
      assumption. }
  apply ReconcilerFacts.compareAt_le in Hle. lia.
Qed.

(** X10. When the clock does not bear on the comparison, the order is
    stable (messages that tie in creation time and id keep the order of
    the input), and it is the only sorted and stable arrangement of the
    input. *)
Theorem orderMessages_stable now l st :
  settled now l ->
  exists sorted st',
    orderMessages l st = (Return sorted, st') /\
    Pure.stable (compareAt now) l sorted /\
    forall other,
      StronglySorted (Pure.le (compareAt now)) other ->
      Pure.stable (compareAt now) l other -> other = sorted.
Proof.
  intros H.
  destruct (ReconcilerFacts.orderMessages_sort clock dateParse dateToString
              localeCompare now l st H) as [st' Hs].
  exists (Pure.sort (compareAt now) l), st'. split; [exact Hs|].
  assert (forall x y, Pure.le (compareAt now) x y \/ Pure.le (compareAt now) y x)
    as Htot by (intros; now apply ReconcilerFacts.compareAt_total).
  assert (forall x y z, Pure.le (compareAt now) x y -> Pure.le (compareAt now) y z ->
                        Pure.le (compareAt now) x z)
    as Htr by (intros x y z; now apply ReconcilerFacts.compareAt_trans).
  split; [now apply SortFacts.sort_stable|].
  intros other Hso Hst. now apply SortFacts.sort_unique.
Qed.
End Collation.
End Ordering.


Section Handler.
Variable clock : nat -> Z.
Variable dateParse : string -> option Z.
Variable dateToString : option Z -> string.
Variable localeCompare : string -> string -> Z.
Variable paramSettlesFirst : bool.

Local Abbreviation orderMessages :=
  (orderMessages clock dateParse dateToString localeCompare).
Local Abbreviation messagesHandler :=
  (messagesHandler clock dateParse dateToString localeCompare paramSettlesFirst).

Lemma slice_sublist {A} start (l : list A) : sublist (slice start l) l.
Proof. unfold slice. apply sublist_drop. Qed.

Lemma limited_sublist limit (merged : list Object) : sublist (limited limit merged) merged.
Proof.
  unfold limited. destruct limit; try reflexivity.
  destruct (0 <? n); [apply slice_sublist|reflexivity].
Qed.

Lemma limited_length limit (merged : list Object) :
  length (limited limit merged) = Notions.capped limit (length merged).
Proof.
  unfold limited, Notions.capped. destruct limit; try reflexivity.
  destruct (Z.ltb_spec 0 n); [|reflexivity].
  unfold slice. destruct (Z.ltb_spec (- n) 0); [|lia].
  rewrite length_drop. lia.
Qed.

(** X11. The messages handler always answers: no exception leaves it and
    it needs no fuel.  The answer is 200 with a list of messages, or 400,
    500 or 503 with an error text; and an answer that is not 200 has not
    read the clock. *)
Theorem messagesHandler_answers ctx body st :
  exists response st',
    messagesHandler ctx body st = (Return response, st') /\
    ((statusCode response = 200 /\
      exists p s count messages,
        payload response = MessagesPayload p s count messages) \/
     ((statusCode response = 400 \/ statusCode response = 500 \/
       statusCode response = 503) /\
      (exists error, payload response = ErrorPayload error) /\ st' = st)).
Proof.
  unfold Reconciler.messagesHandler.
  destruct (ready ctx); [|do 2 eexists; split; [reflexivity|right; simpl; eauto 6]].
  destruct (agentParams ctx) as [paramSvc|];
    [|do 2 eexists; split; [reflexivity|right; simpl; eauto 6]].
  destruct (agentSummary ctx) as [summarySvc|];
    [|do 2 eexists; split; [reflexivity|right; simpl; eauto 6]].
  destruct (negb _ && negb _);
    [do 2 eexists; split; [reflexivity|right; simpl; eauto 6]|].
  unfold tryCatch.
  destruct (fetchThread paramSvc (paramThreadId body)) as [rawParam|reason1],
           (fetchThread summarySvc (summaryThreadId body)) as [rawSummary|reason2];
    try (do 2 eexists; split; [reflexivity|right; simpl; eauto 6]).
  unfold bind at 1. simpl.
  destruct (ReconcilerFacts.orderMessages_returns clock dateParse dateToString
              localeCompare (rawParam ++ rawSummary) st) as (merged & st' & Hm).
  rewrite (bind_Return _ _ _ _ _ Hm).
  do 2 eexists. split; [reflexivity|]. left. simpl. eauto 6.
Qed.

(** X12. What the handler refuses, in the order it checks: a service that
    is not ready is answered 503 whatever the body holds; a ready one
    without a thread id in the body is answered 400; and when a listing is
    rejected the answer is 500 with the reason of the rejection: the reason
    of the one listing that is rejected when the other resolves, and, when
    both are rejected, the reason of the rejection that settles first. *)
Theorem messagesHandler_refusals ctx body st :
  (ready ctx = false \/ agentParams ctx = None \/ agentSummary ctx = None ->
   messagesHandler ctx body st =
   (Return {| statusCode := 503; payload := ErrorPayload "Agent not ready" |}, st)) /\
  (forall paramSvc summarySvc,
     ready ctx = true -> agentParams ctx = Some paramSvc ->
     agentSummary ctx = Some summarySvc ->
     (truthy (paramThreadId body) = false /\ truthy (summaryThreadId body) = false ->
      messagesHandler ctx body st =
      (Return {| statusCode := 400;
                 payload := ErrorPayload "paramThreadId or summaryThreadId required" |},
       st)) /\
     (forall reason rawSummary,
        fetchThread paramSvc (paramThreadId body) = Rejected reason ->
        fetchThread summarySvc (summaryThreadId body) = Resolved rawSummary ->
        messagesHandler ctx body st =
        (Return {| statusCode := 500; payload := ErrorPayload reason |}, st)) /\
     (forall rawParam reason,
        fetchThread paramSvc (paramThreadId body) = Resolved rawParam ->
        fetchThread summarySvc (summaryThreadId body) = Rejected reason ->
        messagesHandler ctx body st =
        (Return {| statusCode := 500; payload := ErrorPayload reason |}, st)) /\
     (forall reason1 reason2,
        fetchThread paramSvc (paramThreadId body) = Rejected reason1 ->
        fetchThread summarySvc (summaryThreadId body) = Rejected reason2 ->
        messagesHandler ctx body st =
        (Return {| statusCode := 500;
                   payload := ErrorPayload
                                (if paramSettlesFirst then reason1 else reason2) |},
         st))).
Proof.
  unfold Reconciler.messagesHandler. split.
  - intros [H|[H|H]]; rewrite H; [reflexivity| |].
    + destruct (ready ctx); reflexivity.
    + destruct (ready ctx), (agentParams ctx); reflexivity.
  - intros paramSvc summarySvc Hr Hp Hs. rewrite Hr, Hp, Hs.
    split; [|split; [|split]].
    + intros [H1 H2]. rewrite H1, H2. reflexivity.
    + intros reason rawSummary Hf1 Hf2.
      assert (truthy (paramThreadId body) = true) as Ht.
      { unfold fetchThread in Hf1. destruct (truthy _); [reflexivity|discriminate]. }
      rewrite Ht. simpl. unfold tryCatch. rewrite Hf1, Hf2. reflexivity.
    + intros rawParam reason Hf1 Hf2.
      assert (truthy (summaryThreadId body) = true) as Ht.
      { unfold fetchThread in Hf2. destruct (truthy _); [reflexivity|discriminate]. }
      rewrite Ht, andb_false_r. unfold tryCatch. rewrite Hf1, Hf2. reflexivity.
    + intros reason1 reason2 Hf1 Hf2.
      assert (truthy (paramThreadId body) = true) as Ht.
      { unfold fetchThread in Hf1. destruct (truthy _); [reflexivity|discriminate]. }
      rewrite Ht. simpl. unfold tryCatch. rewrite Hf1, Hf2. reflexivity.
Qed.

(** X13. On the path that answers 200, when the clock does not bear on
    the comparison and [localeCompare] is a consistent comparator, nothing
    is invented and the limit caps the count: the messages of the answer
    are drawn from the two histories, each as often as it occurs there at
    most; [mergedCount] is their number; and that number is the smaller of
    [limit] and the number of messages listed when [limit] is an integer
    greater than zero, and the number of messages listed when [limit] is
    absent, not a number, zero or a negative integer. *)
Theorem messagesHandler_count now ctx body st paramSvc summarySvc rawParam rawSummary :
  (forall s t, localeCompare s t <= 0 \/ localeCompare t s <= 0) ->
  (forall s t u,
     localeCompare s t <= 0 -> localeCompare t u <= 0 -> localeCompare s u <= 0) ->
  Pure.settled clock dateParse now (rawParam ++ rawSummary) ->
  ready ctx = true ->
  agentParams ctx = Some paramSvc ->
  agentSummary ctx = Some summarySvc ->
  truthy (paramThreadId body) || truthy (summaryThreadId body) = true ->
  fetchThread paramSvc (paramThreadId body) = Resolved rawParam ->
  fetchThread summarySvc (summaryThreadId body) = Resolved rawSummary ->
  exists p s out st',
    messagesHandler ctx body st =
      (Return {| statusCode := 200; payload := MessagesPayload p s (length out) out |},
       st') /\
    out ⊆+ (rawParam ++ rawSummary)%list /\
    length out = Notions.capped (limit body) (length rawParam + length rawSummary).
Proof.
  intros _ _ Hsettled Hready Hparam Hsummary Hids Hp Hs.
  destruct (ReconcilerFacts.orderMessages_sort clock dateParse dateToString
              localeCompare now (rawParam ++ rawSummary) st Hsettled) as (st' & Hm).
  pose proof (SortFacts.sort_perm
                (Pure.compareAt dateParse dateToString localeCompare now)
                (rawParam ++ rawSummary)) as Hperm.
  do 2 eexists.
  exists (limited (limit body)
            (Pure.sort (Pure.compareAt dateParse dateToString localeCompare now)
               (rawParam ++ rawSummary))), st'.
  split; [|split].
  - unfold Reconciler.messagesHandler. rewrite Hready, Hparam, Hsummary.
    replace (negb (truthy (paramThreadId body)) && negb (truthy (summaryThreadId body)))
      with false
      by (destruct (truthy (paramThreadId body)), (truthy (summaryThreadId body));
          simpl in *; congruence).
    unfold tryCatch. rewrite Hp, Hs.
    unfold bind at 1. simpl.
    rewrite (bind_Return _ _ _ _ _ Hm). reflexivity.
  - rewrite <- Hperm at 2. apply sublist_submseteq, limited_sublist.
  - rewrite limited_length, Hperm, length_app. reflexivity.
Qed.
End Handler.

End ReconcilerMore.

Module ReconcilerMoreExamples.
Import Js Reconciler Samples.

(** A string that is no date in front of a date: the date decides. *)
Lemma pickCreatedMs_first_usable_witness :
  pickCreatedMs (Doubles.frozen 0) noDateParse Fixtures.twoFields noCalls =
  (Return 1700000000000, noCalls).
Proof.
  apply (ReconcilerMore.pickCreatedMs_first_usable (Doubles.frozen 0) noDateParse
           Fixtures.twoFields ["created_at"] "createdAt"
           ["created"; "createTime"; "timestamp"] (VDate (Some 1700000000000))
           1700000000000 noCalls); try reflexivity.
  intros k' [<-|[]]. right. split; reflexivity.
Defined.

(** A message with an id only: the clock decides. *)
Lemma pickCreatedMs_fallback_witness :
  pickCreatedMs (Doubles.frozen 42) noDateParse (bareMessage "n") noCalls =
  (Return 42, {| nows := 1; appends := 0; creates := 0; gets := 0; sleeps := 0 |}).
Proof.
  apply (ReconcilerMore.pickCreatedMs_fallback (Doubles.frozen 42) noDateParse
           (bareMessage "n") noCalls).
  intros k Hk. left.
  repeat (destruct Hk as [<-|Hk]; [reflexivity|]). destruct Hk.
Defined.

Lemma orderMessages_ascending_witness :
  exists sorted st',
    orderMessages (Doubles.frozen 0) noDateParse noDateString Pure.lexCompare
      Deployment.history noCalls = (Return sorted, st') /\
    forall i j a b, (i < j)%nat -> sorted !! i = Some a -> sorted !! j = Some b ->
      Pure.stampAt noDateParse 0 a <= Pure.stampAt noDateParse 0 b.
Proof.
  apply (ReconcilerMore.orderMessages_ascending (Doubles.frozen 0) noDateParse
           noDateString Pure.lexCompare ReconcilerExamples.lexCompare_total
           ReconcilerExamples.lexCompare_trans 0 Deployment.history noCalls).
  left. repeat constructor; eexists; reflexivity.
Defined.

Lemma orderMessages_stable_witness :
  exists sorted st',
    orderMessages (Doubles.frozen 0) noDateParse noDateString Pure.lexCompare
      Deployment.history noCalls = (Return sorted, st') /\
    Pure.stable (Pure.compareAt noDateParse noDateString Pure.lexCompare 0)
      Deployment.history sorted /\
    forall other,
      StronglySorted
        (Pure.le (Pure.compareAt noDateParse noDateString Pure.lexCompare 0)) other ->
      Pure.stable (Pure.compareAt noDateParse noDateString Pure.lexCompare 0)
        Deployment.history other ->
      other = sorted.
Proof.
  apply (ReconcilerMore.orderMessages_stable (Doubles.frozen 0) noDateParse
           noDateString Pure.lexCompare ReconcilerExamples.lexCompare_total
           ReconcilerExamples.lexCompare_trans 0 Deployment.history noCalls).
  left. repeat constructor; eexists; reflexivity.
Defined.

(** Before the start-up has finished a request is answered 503; with
    both listings down and the one of the summary thread the first to
    fail, 500 with the reason of the summary thread; with the parameter
    thread alone asked for and its listing down, 500 with its reason. *)
Lemma messagesHandler_refusals_witness :
  messagesHandler (Doubles.frozen 0) noDateParse noDateString Pure.lexCompare true
    Fixtures.coldCtx Deployment.lastTwo noCalls =
  (Return {| statusCode := 503; payload := ErrorPayload "Agent not ready" |}, noCalls) /\
  messagesHandler (Doubles.frozen 0) noDateParse noDateString Pure.lexCompare false
    Fixtures.downCtx Fixtures.bothThreads noCalls =
  (Return {| statusCode := 500; payload := ErrorPayload "summary down" |}, noCalls) /\
  messagesHandler (Doubles.frozen 0) noDateParse noDateString Pure.lexCompare false
    Fixtures.downCtx Fixtures.paramThread noCalls =
  (Return {| statusCode := 500; payload := ErrorPayload "param down" |}, noCalls).
Proof.
  split; [|split].
  - apply (proj1 (ReconcilerMore.messagesHandler_refusals (Doubles.frozen 0)
                    noDateParse noDateString Pure.lexCompare true Fixtures.coldCtx
                    Deployment.lastTwo noCalls)).
    left. reflexivity.
  - destruct (proj2 (ReconcilerMore.messagesHandler_refusals (Doubles.frozen 0)
                       noDateParse noDateString Pure.lexCompare false Fixtures.downCtx
                       Fixtures.bothThreads noCalls)
                Fixtures.paramDown Fixtures.summaryDown eq_refl eq_refl eq_refl)
      as (_ & _ & _ & H).
    apply (H "param down" "summary down"); reflexivity.
  - destruct (proj2 (ReconcilerMore.messagesHandler_refusals (Doubles.frozen 0)
                       noDateParse noDateString Pure.lexCompare false Fixtures.downCtx
                       Fixtures.paramThread noCalls)
                Fixtures.paramDown Fixtures.summaryDown eq_refl eq_refl eq_refl)
      as (_ & H & _).
    apply (H "param down" []); reflexivity.
Defined.

(** Three messages listed, [limit: 2]: two messages answered. *)
Lemma messagesHandler_count_witness :
  exists p s out st',
    messagesHandler (Doubles.frozen 0) noDateParse noDateString Pure.lexCompare true
      Deployment.readyCtx Deployment.lastTwo noCalls =
      (Return {| statusCode := 200; payload := MessagesPayload p s (length out) out |},
       st') /\
    out ⊆+ (Deployment.history ++ [])%list /\
    length out = Notions.capped (VNumber 2) (3 + 0).
Proof.
  apply (ReconcilerMore.messagesHandler_count (Doubles.frozen 0) noDateParse
           noDateString Pure.lexCompare true 0 Deployment.readyCtx Deployment.lastTwo
           noCalls Deployment.listHistory Deployment.listHistory Deployment.history []
           ReconcilerExamples.lexCompare_total ReconcilerExamples.lexCompare_trans);
    try reflexivity.
  right. intros k. reflexivity.
Defined.

End ReconcilerMoreExamples.

(** ** More on the credential provider *)

Module AuthMore.
Import Auth.

Section Provider.
Variable clock : nat -> Z.
Variable axios_post : nat -> string -> list (string * string) -> Reply (option TokenData).

Local Abbreviation getToken := (getToken clock axios_post).
Local Abbreviation fresh := (Pure.fresh clock).

(** The second of the call that finds state [st]. *)
Local Abbreviation second st := (clock (clockReads st) / 1000).

(** What a call that goes to the exchange and is given token data does. *)
Lemma getToken_refresh config st data :
  fresh st = false ->
  (forall endpoint params,
     axios_post (posts st) endpoint params = Resolved (Some data)) ->
  getToken config st =
  (match Js.timeClip ((second st + ttl (expires_in data)) * 1000) with
   | Some _ => Return (Some {| accessToken := access_token data;
                               expiresAt := second st + ttl (expires_in data) |})
   | None => Return None
   end,
   {| cachedToken := access_token data;
      tokenExpireAt := second st + ttl (expires_in data);
      clockReads := S (clockReads st); posts := S (posts st) |}).
Proof.
  unfold Pure.fresh, Auth.getToken. intros H Hdata.
  unfold bind at 1. unfold Date_now at 1. unfold bind at 1. simpl.
  rewrite H. unfold tryCatch, bind at 1, call_axios_post at 1. simpl.
  rewrite Hdata. simpl. unfold bind, writeCache, toISOString. simpl.
  destruct (Js.timeClip _); reflexivity.
Qed.

(** X14. [getToken] never raises, whatever the identity endpoint does:
    every call resolves, to a token or to [null].  It reads the clock
    once and goes to the exchange at most once. *)
Theorem getToken_never_raises config st :
  exists result st',
    getToken config st = (Return result, st') /\
    clockReads st' = S (clockReads st) /\
    (posts st' = posts st \/ posts st' = S (posts st)).
Proof.
  destruct (fresh st) eqn:F.
  - rewrite (AuthFacts.getToken_fresh clock axios_post config st F).
    do 2 eexists. split; [reflexivity|]. simpl. auto.
  - revert F. unfold Pure.fresh, Auth.getToken. intros H.
    unfold bind at 1. unfold Date_now at 1. unfold bind at 1. simpl.
    rewrite H. unfold tryCatch, bind at 1, call_axios_post at 1. simpl.
    destruct (axios_post _ _ _) as [[data|]|reason]; simpl.
    + unfold bind, writeCache, toISOString. simpl.
      destruct (Js.timeClip _); simpl; do 2 eexists; (split; [reflexivity|]);
        simpl; auto.
    + do 2 eexists. split; [reflexivity|]. simpl. auto.
    + do 2 eexists. split; [reflexivity|]. simpl. auto.
Qed.

(** X15. A call that goes to the exchange and is given token data, with
    an expiry a [Date] can hold, returns the token with the expiry
    [now + expires_in] in seconds and stores exactly that pair; a missing
    [expires_in], or one of zero, counts as 3600 seconds. *)
Theorem getToken_refresh_stores config st data :
  fresh st = false ->
  (forall endpoint params,
     axios_post (posts st) endpoint params = Resolved (Some data)) ->
  Z.abs ((second st + ttl (expires_in data)) * 1000) <= Js.maxTime ->
  getToken config st =
  (Return (Some {| accessToken := access_token data;
                   expiresAt := second st + ttl (expires_in data) |}),
   {| cachedToken := access_token data;
      tokenExpireAt := second st + ttl (expires_in data);
      clockReads := S (clockReads st); posts := S (posts st) |}) /\
  (expires_in data = None \/ expires_in data = Some 0 ->
   ttl (expires_in data) = 3600).
Proof.
  intros F Hdata Hrange. split.
  - rewrite (getToken_refresh config st data F Hdata).
    unfold Js.timeClip. apply Z.leb_le in Hrange. now rewrite Hrange.
  - intros [-> | ->]; reflexivity.
Qed.

(** X16. What a refresh stores is what the next call returns: after a
    refresh that delivered a token that is not empty, a call made while
    more than 60 seconds of the stored expiry are left returns the same
    token and expiry without going to the exchange. *)
Theorem getToken_refresh_then_reuse config config' st data token :
  fresh st = false ->
  (forall endpoint params,
     axios_post (posts st) endpoint params = Resolved (Some data)) ->
  Z.abs ((second st + ttl (expires_in data)) * 1000) <= Js.maxTime ->
  access_token data = Some token -> token <> "" ->
  clock (S (clockReads st)) / 1000 + 60 < second st + ttl (expires_in data) ->
  exists st1 st2,
    getToken config st =
      (Return (Some {| accessToken := Some token;
                       expiresAt := second st + ttl (expires_in data) |}), st1) /\
    getToken config' st1 =
      (Return (Some {| accessToken := Some token;
                       expiresAt := second st + ttl (expires_in data) |}), st2) /\
    posts st2 = posts st1.
Proof.
  intros F Hdata Hrange Htok Hne Hsoon.
  pose proof (getToken_refresh config st data F Hdata) as H1.
  unfold Js.timeClip in H1. apply Z.leb_le in Hrange. rewrite Hrange, Htok in H1.
  do 2 eexists. split; [exact H1|].
  split.
  - rewrite AuthFacts.getToken_fresh; [reflexivity|].
    unfold Pure.fresh. simpl. apply andb_true_iff. split.
    + apply negb_true_iff, String.eqb_neq. exact Hne.
    + apply Z.ltb_lt. exact Hsoon.
  - reflexivity.
Qed.

(** X17. When the exchange delivers an expiry no [Date] can hold, the
    line that logs the expiry raises after the cache has been written:
    the call returns [null] although the exchange succeeded, and the cache
    holds the new token with the expiry that cannot be logged. *)
Theorem getToken_unloggable_expiry config st data :
  fresh st = false ->
  (forall endpoint params,
     axios_post (posts st) endpoint params = Resolved (Some data)) ->
  Js.maxTime < Z.abs ((second st + ttl (expires_in data)) * 1000) ->
  getToken config st =
  (Return None,
   {| cachedToken := access_token data;
      tokenExpireAt := second st + ttl (expires_in data);
      clockReads := S (clockReads st); posts := S (posts st) |}).
Proof.
  intros F Hdata Hrange.
  rewrite (getToken_refresh config st data F Hdata).
  unfold Js.timeClip. apply Z.leb_gt in Hrange. now rewrite Hrange.
Qed.

End Provider.
End AuthMore.

Module AuthMoreExamples.
Import Auth.

(** A refresh ten seconds before the old token expires. *)
Lemma getToken_refresh_stores_witness :
  getToken (Doubles.frozen 990000) Identity.issuing Identity.config Identity.holding =
  (Return (Some {| accessToken := Some "tok"; expiresAt := 990 + 3600 |}),
   {| cachedToken := Some "tok"; tokenExpireAt := 990 + 3600;
      clockReads := 1; posts := 1 |}) /\
  (Some 3600 = None \/ Some 3600 = Some 0 -> ttl (Some 3600) = 3600).
Proof.
  apply (AuthMore.getToken_refresh_stores (Doubles.frozen 990000) Identity.issuing
           Identity.config Identity.holding
           {| access_token := Some "tok"; expires_in := Some 3600 |}).
  - reflexivity.
  - reflexivity.
  - vm_compute. discriminate.
Defined.

Lemma getToken_refresh_then_reuse_witness :
  exists st1 st2,
    getToken (Doubles.frozen 990000) Identity.issuing Identity.config Identity.holding =
      (Return (Some {| accessToken := Some "tok"; expiresAt := 990 + 3600 |}), st1) /\
    getToken (Doubles.frozen 990000) Identity.issuing Identity.config st1 =
      (Return (Some {| accessToken := Some "tok"; expiresAt := 990 + 3600 |}), st2) /\
    posts st2 = posts st1.
Proof.
  apply (AuthMore.getToken_refresh_then_reuse (Doubles.frozen 990000) Identity.issuing
           Identity.config Identity.config Identity.holding
           {| access_token := Some "tok"; expires_in := Some 3600 |} "tok").
  - reflexivity.
  - reflexivity.
  - vm_compute. discriminate.
  - reflexivity.
  - discriminate.
  - reflexivity.
Defined.

Lemma getToken_unloggable_expiry_witness :
  getToken (Doubles.frozen 990000) Identity.overlong Identity.config Identity.holding =
  (Return None,
   {| cachedToken := Some "tok"; tokenExpireAt := 990 + 10 ^ 13;
      clockReads := 1; posts := 1 |}).
Proof.
  apply (AuthMore.getToken_unloggable_expiry (Doubles.frozen 990000) Identity.overlong
           Identity.config Identity.holding
           {| access_token := Some "tok"; expires_in := Some (10 ^ 13) |});
    reflexivity.
Defined.

End AuthMoreExamples.

(** ** The last reply *)

Module AssistantFacts.
Import Js Assistant.

Section Platform.
Variable dateToString : option Z -> string.

Local Abbreviation isAssistant := (isAssistant dateToString).
Local Abbreviation scanBack := (scanBack dateToString).
Local Abbreviation getLastAssistantMessage := (getLastAssistantMessage dateToString).

Lemma scanBack_Some l m : scanBack l = Some m -> m ∈ l /\ isAssistant m = true.
Proof.
  induction l as [|x l IH]; simpl; [discriminate|].
  destruct (isAssistant x) eqn:E.
  - intros [= <-]. split; [apply list_elem_of_here|exact E].
  - intros H. destruct (IH H). split; [now apply list_elem_of_further|assumption].
Qed.

Lemma scanBack_skip l1 l2 :
  Forall (fun x => isAssistant x = false) l1 -> scanBack (l1 ++ l2) = scanBack l2.
Proof.
  induction 1 as [|x l1 Hx Hl IH]; simpl; [reflexivity|]. now rewrite Hx.
Qed.

(** X18. [getLastAssistantMessage] answers [null] exactly on the empty
    array; on any other array it answers one of the messages of the
    array. *)
Theorem getLastAssistantMessage_member (messages : list Object) :
  (getLastAssistantMessage messages = None <-> messages = []) /\
  (forall m, getLastAssistantMessage messages = Some m -> m ∈ messages).
Proof.
  unfold Assistant.getLastAssistantMessage. split.
  - destruct messages as [|x l]; [tauto|]. split; [|discriminate].
    destruct (scanBack (rev (x :: l))); [discriminate|].
    intros H. apply last_None in H. discriminate.
  - intros m. destruct messages as [|x l]; [discriminate|].
    destruct (scanBack (rev (x :: l))) as [m'|] eqn:E.
    + intros [= <-]. apply scanBack_Some in E. destruct E as [E _].
      apply list_elem_of_In. apply list_elem_of_In in E. now apply in_rev.
    + apply last_Some_elem_of.
Qed.

(** X19. [getLastAssistantMessage] answers the last message whose role
    ([role], else [author], else [from], compared without regard to case)
    is [assistant]; when no message has that role it answers the last
    message of the array. *)
Theorem getLastAssistantMessage_last (messages : list Object) :
  (forall before m after,
     messages = (before ++ m :: after)%list ->
     isAssistant m = true ->
     Forall (fun x => isAssistant x = false) after ->
     getLastAssistantMessage messages = Some m) /\
  (Forall (fun x => isAssistant x = false) messages ->
   getLastAssistantMessage messages = last messages).
Proof.
  unfold Assistant.getLastAssistantMessage. split.
  - intros before m after -> Hm Hafter.
    destruct (before ++ m :: after)%list eqn:E; [now destruct before|].
    rewrite <- E. rewrite rev_app_distr. simpl. rewrite <- app_assoc. simpl.
    rewrite scanBack_skip by now apply Forall_rev.
    simpl. now rewrite Hm.
  - intros H. destruct messages as [|x l]; [reflexivity|].
    apply Forall_rev in H. rewrite <- (app_nil_r (rev (x :: l))).
    now rewrite (scanBack_skip _ [] H).
Qed.
End Platform.

End AssistantFacts.

Module AssistantExamples.
Import Js Assistant.

(** [[user, assistant, user]]: the entry in the middle. *)
Lemma getLastAssistantMessage_last_witness :
  getLastAssistantMessage Samples.noDateString
    [Fixtures.userTurn; Fixtures.assistantTurn; Fixtures.userTurn] =
  Some Fixtures.assistantTurn.
Proof.
  apply (proj1 (AssistantFacts.getLastAssistantMessage_last Samples.noDateString
                  [Fixtures.userTurn; Fixtures.assistantTurn; Fixtures.userTurn])
           [Fixtures.userTurn] Fixtures.assistantTurn [Fixtures.userTurn]).
  - reflexivity.
  - reflexivity.
  - repeat constructor.
Defined.

End AssistantExamples.

(** ** The rest of the service *)

Module ServiceFacts.
Import Js Service.

Lemma collect_map yielded : forall out,
  collect yielded out = (out ++ map plain yielded)%list.
Proof.
  induction yielded as [|m rest IH]; intros out; simpl.
  - now rewrite app_nil_r.
  - rewrite IH, <- app_assoc. reflexivity.
Qed.

Section Methods.
Variable api : Api.

(** X20. [listMessages] makes one listing call.  When the iteration runs
    to its end it returns one entry per remote message, in the order of
    the listing; when the iteration is ended by a rejection it passes the
    rejection on and returns nothing of what had been listed before. *)
Theorem listMessages_outcome threadId w :
  listMessages api threadId w =
  (match snd (messages_list api (lists w) threadId) with
   | Some reason => Throw (Rejection reason)
   | None => Return (map plain (fst (messages_list api (lists w) threadId)))
   end,
   {| calls := calls w; agentReads := agentReads w; threadCreates := threadCreates w;
      lists := S (lists w); ctx := ctx w |}).
Proof.
  unfold listMessages, bind, call_messages_list. simpl.
  destruct (messages_list api (lists w) threadId) as [yielded [reason|]]; simpl.
  - reflexivity.
  - now rewrite collect_map.
Qed.
End Methods.

Section Reconciled.
Variable dateParse : string -> option Z.
Variable dateToString : option Z -> string.
Variable localeCompare : string -> string -> Z.

(** Of the candidate creation fields a listed message has [createdAt]
    only. *)
Lemma probe_plain m :
  Reconciler.probe dateParse Reconciler.CREATED_KEYS (plain m) =
  Reconciler.probe dateParse ["createdAt"] (plain m).
Proof. reflexivity. Qed.

Lemma get_plain_createdAt m : get (plain m) "createdAt" = createdAt m.
Proof. reflexivity. Qed.

Lemma idOf_plain m : Reconciler.idOf dateToString (plain m) = id m.
Proof. reflexivity. Qed.

(** X21. How the reconciler sees a listed message: its id is the remote
    id; when the remote [createdAt] is a valid date its creation time is
    the time of that date, whatever the clock reads; and when the remote
    message has no [createdAt] its creation time is the reading of the
    clock. *)
Theorem plain_reconciled clock m st :
  Reconciler.idOf dateToString (plain m) = id m /\
  (forall t, createdAt m = VDate (Some t) ->
     Reconciler.pickCreatedMs clock dateParse (plain m) st = (Return t, st)) /\
  (isNullish (createdAt m) = true ->
     Reconciler.pickCreatedMs clock dateParse (plain m) st = Date_now clock st).
Proof.
  split; [apply idOf_plain|]. unfold Reconciler.pickCreatedMs. rewrite probe_plain.
  simpl. rewrite get_plain_createdAt. split.
  - intros t ->. reflexivity.
  - intros ->. reflexivity.
Qed.

(** X22. Histories in which every message has a valid [createdAt] date
    are merged in the same order whatever the clock reads and whenever the
    sort runs. *)
Theorem dated_histories_order clock1 clock2 messages st1 st2 :
  Forall (fun m => exists t, createdAt m = VDate (Some t)) messages ->
  exists sorted st1' st2',
    Reconciler.orderMessages clock1 dateParse dateToString localeCompare
      (map plain messages) st1 = (Return sorted, st1') /\
    Reconciler.orderMessages clock2 dateParse dateToString localeCompare
      (map plain messages) st2 = (Return sorted, st2').
Proof.
  intros H.
  assert (Forall (Pure.stamped dateParse) (map plain messages)) as Hs.
  { apply Forall_map. eapply Forall_impl; [exact H|].
    intros m [t Ht]. unfold Pure.stamped. rewrite probe_plain. simpl.
    rewrite get_plain_createdAt, Ht. simpl. eauto. }
  destruct (ReconcilerFacts.orderMessages_sort clock1 dateParse dateToString
              localeCompare 0 (map plain messages) st1 (or_introl Hs)) as [st1' H1].
  destruct (ReconcilerFacts.orderMessages_sort clock2 dateParse dateToString
              localeCompare 0 (map plain messages) st2 (or_introl Hs)) as [st2' H2].
  eauto.
Qed.
End Reconciled.

End ServiceFacts.

Module ServiceExamples.
Import Js Service.

Lemma dated_histories_order_witness :
  exists sorted st1' st2',
    Reconciler.orderMessages (Doubles.frozen 0) Samples.noDateParse Samples.noDateString
      Pure.lexCompare
      (map plain [Fixtures.remoteMessage "m2" "hello" 2000;
                  Fixtures.remoteMessage "m1" "hi" 1000]) noCalls =
      (Return sorted, st1') /\
    Reconciler.orderMessages (Doubles.frozen 1500) Samples.noDateParse
      Samples.noDateString Pure.lexCompare
      (map plain [Fixtures.remoteMessage "m2" "hello" 2000;
                  Fixtures.remoteMessage "m1" "hi" 1000]) noCalls =
      (Return sorted, st2').
Proof.
  apply (ServiceFacts.dated_histories_order Samples.noDateParse Samples.noDateString
           Pure.lexCompare (Doubles.frozen 0) (Doubles.frozen 1500)
           [Fixtures.remoteMessage "m2" "hello" 2000;
            Fixtures.remoteMessage "m1" "hi" 1000] noCalls noCalls).
  repeat constructor; eexists; reflexivity.
Defined.

Lemma plain_reconciled_witness :
  Reconciler.pickCreatedMs (Doubles.frozen 0) Samples.noDateParse
    (plain (Fixtures.remoteMessage "m1" "hi" 1000)) noCalls = (Return 1000, noCalls).
Proof.
  apply (proj1 (proj2 (ServiceFacts.plain_reconciled Samples.noDateParse
                         Samples.noDateString (Doubles.frozen 0)
                         (Fixtures.remoteMessage "m1" "hi" 1000) noCalls))).
  reflexivity.
Defined.

(** The text of a listed message is the value of its first text item. *)
Example plain_text :
  get (plain (Fixtures.remoteMessage "m1" "hi" 1000)) "text" = VString "hi".
Proof. reflexivity. Qed.

End ServiceExamples.

(** ** Start-up and the send handler *)

Module ServerFacts.
Import Js Service Server.

Section Platform.
Variable clock : nat -> Z.
Variable api : Api.
Variable dateToString : option Z -> string.
Variable paramSettlesFirst : bool.
Variable app_listen : option string -> option string.

Local Abbreviation bootstrap := (bootstrap api paramSettlesFirst).
Local Abbreviation main := (main api paramSettlesFirst app_listen).
Local Abbreviation sendHandler := (sendHandler clock api dateToString).
Local Abbreviation field := (field dateToString).

(** The world after the two [getAgent] calls of [bootstrap]. *)
Local Abbreviation asked w :=
  {| calls := calls w; agentReads := S (S (agentReads w));
     threadCreates := threadCreates w; lists := lists w; ctx := ctx w |}.

(** X23. With the three environment variables set and both agents known
    to the remote service, [bootstrap] asks for each agent once, binds the
    two services to the ids the remote service answers (not to the ids of
    the environment) and marks the server ready; [ensureReady] holds
    afterwards. *)
Theorem bootstrap_ready env w projectUrl paramId summaryId agent1 agent2 :
  AZURE_AI_PROJECT_URL env = Some projectUrl -> projectUrl <> "" ->
  AZURE_Params_AGENT_ID env = Some paramId -> paramId <> "" ->
  AZURE_Summary_AGENT_ID env = Some summaryId -> summaryId <> "" ->
  getAgent api (agentReads w) paramId = Resolved agent1 ->
  getAgent api (S (agentReads w)) summaryId = Resolved agent2 ->
  exists w',
    bootstrap env w = (Return tt, w') /\
    ctx w' = {| ready := true;
                agentParams := Some {| agentId := agent_id agent1 |};
                agentSummary := Some {| agentId := agent_id agent2 |} |} /\
    ensureReady (ctx w') = true /\
    agentReads w' = S (S (agentReads w)) /\ calls w' = calls w.
Proof.
  intros Hu Hu' Hp Hp' Hs Hs' H1 H2. unfold Server.bootstrap.
  rewrite Hu, Hp, Hs. simpl.
  apply String.eqb_neq in Hu', Hp', Hs'. rewrite Hu', Hp', Hs'. simpl.
  unfold bind, call_getAgent, writeCtx. simpl. rewrite H1, H2. simpl.
  eexists. split; [reflexivity|]. simpl. auto.
Qed.

(** X24. How [bootstrap] fails.  An environment variable that is unset or
    empty is raised before anything is asked of the remote service.  An
    agent the remote service rejects is raised with the reason of the
    rejection, after both agents have been asked for: the reason of the
    one call that is rejected when the other resolves, and, when both are
    rejected, the reason of the rejection that settles first.  In every
    case [ctx] is left as it was. *)
Theorem bootstrap_failures env w :
  (orEmpty (AZURE_AI_PROJECT_URL env) = "" \/ orEmpty (AZURE_Params_AGENT_ID env) = ""
   \/ orEmpty (AZURE_Summary_AGENT_ID env) = "" ->
   bootstrap env w =
   (Throw (JsError "Missing env: AZURE_AI_PROJECT_URL or agent IDs"), w)) /\
  (orEmpty (AZURE_AI_PROJECT_URL env) <> "" ->
   orEmpty (AZURE_Params_AGENT_ID env) <> "" ->
   orEmpty (AZURE_Summary_AGENT_ID env) <> "" ->
   (forall reason agent2,
      getAgent api (agentReads w) (orEmpty (AZURE_Params_AGENT_ID env))
        = Rejected reason ->
      getAgent api (S (agentReads w)) (orEmpty (AZURE_Summary_AGENT_ID env))
        = Resolved agent2 ->
      bootstrap env w = (Throw (Rejection reason), asked w)) /\
   (forall agent1 reason,
      getAgent api (agentReads w) (orEmpty (AZURE_Params_AGENT_ID env))
        = Resolved agent1 ->
      getAgent api (S (agentReads w)) (orEmpty (AZURE_Summary_AGENT_ID env))
        = Rejected reason ->
      bootstrap env w = (Throw (Rejection reason), asked w)) /\
   (forall reason1 reason2,
      getAgent api (agentReads w) (orEmpty (AZURE_Params_AGENT_ID env))
        = Rejected reason1 ->
      getAgent api (S (agentReads w)) (orEmpty (AZURE_Summary_AGENT_ID env))
        = Rejected reason2 ->
      bootstrap env w =
      (Throw (Rejection (if paramSettlesFirst then reason1 else reason2)), asked w))).
Proof.
  unfold Server.bootstrap. split.
  - intros [H|[H|H]]; rewrite H; simpl; rewrite ?orb_true_r; reflexivity.
  - intros Hu Hp Hs. apply String.eqb_neq in Hu, Hp, Hs. rewrite Hu, Hp, Hs. simpl.
    unfold bind, call_getAgent. simpl. split; [|split].
    + intros reason agent2 H1 H2. rewrite H1, H2. reflexivity.
    + intros agent1 reason H1 H2. rewrite H1, H2. reflexivity.
    + intros reason1 reason2 H1 H2. rewrite H1, H2. reflexivity.
Qed.


(** The world after [appendAndRun] has left the call counters at [c]. *)
Local Abbreviation ran w c :=
  {| calls := c; agentReads := agentReads w; threadCreates := threadCreates w;
     lists := lists w; ctx := ctx w |}.

(** The world after a thread has been asked for. *)
Local Abbreviation threaded w :=
  {| calls := calls w; agentReads := agentReads w;
     threadCreates := S (threadCreates w); lists := lists w; ctx := ctx w |}.

(** What the handler answers to the outcome of [appendAndRun]. *)
Local Abbreviation answer agentType thread r :=
  (match r with
   | Return _ => Return {| statusCode := 200; payload := SentPayload agentType thread |}
   | Throw e =>
       Return {| statusCode := 500;
                 payload := ErrorPayload (Reconciler.errorMessage e) |}
   | OutOfFuel => OutOfFuel
   end).

(** A request that passes the checks reaches the [try] block. *)
Lemma sendHandler_valid fuel body w svc :
  ensureReady (ctx w) = true ->
  field (agentType body) = "param" \/ field (agentType body) = "summary" ->
  field (message body) <> "" ->
  getSvc (ctx w) (field (agentType body)) = Some svc ->
  sendHandler fuel body w =
  tryCatch
    (thread <~ (if truthy (threadId body) then ret (threadId body)
                else (t <~ createThread api ;; ret (VString t))) ;;
     appendAndRun clock api svc fuel
       (Reconciler.toString dateToString thread) (field (message body)) ;;;
     ret {| statusCode := 200;
            payload := SentPayload (field (agentType body)) thread |})
    (fun e =>
       ret {| statusCode := 500; payload := ErrorPayload (Reconciler.errorMessage e) |})
    w.
Proof.
  intros Hready Htype Hmsg Hsvc. unfold Server.sendHandler.
  unfold bind at 1. unfold readCtx at 1. rewrite Hready. simpl.
  replace (negb (String.eqb (field (agentType body)) "param")
           && negb (String.eqb (field (agentType body)) "summary")) with false
    by (destruct Htype as [-> | ->]; reflexivity).
  apply String.eqb_neq in Hmsg. rewrite Hmsg, Hsvc. reflexivity.
Qed.

(** X26. A request on an existing thread is answered by the outcome of
    [appendAndRun] alone: 200 with the agent type and the thread id
    whenever [appendAndRun] returns, whatever the status of the run it
    returns (a run still pending at the timeout included), and 500 with
    the text of the error whenever it raises.  No thread is created. *)
Theorem sendHandler_relays fuel body w svc r c :
  ensureReady (ctx w) = true ->
  field (agentType body) = "param" \/ field (agentType body) = "summary" ->
  field (message body) <> "" ->
  getSvc (ctx w) (field (agentType body)) = Some svc ->
  truthy (threadId body) = true ->
  Agent.appendAndRun clock (agents api) (agentId svc) fuel
    (Reconciler.toString dateToString (threadId body)) (field (message body))
    None None (calls w) = (r, c) ->
  sendHandler fuel body w =
  (answer (field (agentType body)) (threadId body) r, ran w c).
Proof.
  intros Hready Htype Hmsg Hsvc Hthread Hrun.
  rewrite (sendHandler_valid fuel body w svc) by assumption.
  rewrite Hthread. unfold tryCatch, bind at 1. simpl.
  unfold bind, appendAndRun, liftCalls. rewrite Hrun.
  destruct r; reflexivity.
Qed.

(** X27. A request without a thread id asks for one thread.  When the
    remote service rejects that, the answer is 500 with the reason and
    nothing is appended; when it gives a thread, the message is appended
    to that thread and the answer carries its id. *)
Theorem sendHandler_new_thread fuel body w svc :
  ensureReady (ctx w) = true ->
  field (agentType body) = "param" \/ field (agentType body) = "summary" ->
  field (message body) <> "" ->
  getSvc (ctx w) (field (agentType body)) = Some svc ->
  truthy (threadId body) = false ->
  (forall reason,
     threads_create api (threadCreates w) = Rejected reason ->
     sendHandler fuel body w =
     (Return {| statusCode := 500; payload := ErrorPayload reason |}, threaded w)) /\
  (forall t r c,
     threads_create api (threadCreates w) = Resolved t ->
     Agent.appendAndRun clock (agents api) (agentId svc) fuel t (field (message body))
       None None (calls w) = (r, c) ->
     sendHandler fuel body w =
     (answer (field (agentType body)) (VString t) r, ran (threaded w) c)).
Proof.
  intros Hready Htype Hmsg Hsvc Hthread.
  rewrite (sendHandler_valid fuel body w svc) by assumption.
  rewrite Hthread. unfold tryCatch, createThread. split.
  - intros reason Hc. unfold bind at 1. unfold bind at 1.
    unfold call_threads_create at 1. rewrite Hc. reflexivity.
  - intros t r c Hc Hrun. unfold bind at 1. unfold bind at 1.
    unfold call_threads_create at 1. rewrite Hc. simpl.
    unfold bind, appendAndRun, liftCalls. simpl. rewrite Hrun.
    destruct r; reflexivity.
Qed.


End Platform.
End ServerFacts.

Module ServerExamples.
Import Js Service Server.

Lemma bootstrap_ready_witness :
  exists w',
    bootstrap Fixtures.remote true Fixtures.env Service.initial = (Return tt, w') /\
    ctx w' = {| ready := true;
                agentParams := Some {| agentId := "asst_p" |};
                agentSummary := Some {| agentId := "asst_s" |} |} /\
    ensureReady (ctx w') = true /\
    agentReads w' = 2%nat /\ calls w' = noCalls.
Proof.
  apply (ServerFacts.bootstrap_ready Fixtures.remote true Fixtures.env Service.initial
           "https://project.example" "p" "s"
           {| agent_id := "asst_p"; agent_name := None |}
           {| agent_id := "asst_s"; agent_name := None |});
    first [reflexivity | discriminate].
Defined.

(** No agent id for the summaries in the environment: nothing is asked
    of the remote service.  Both agents unknown to the remote service, the
    call for the summary agent the first to fail: its reason is raised,
    after both have been asked for. *)
Lemma bootstrap_failures_witness :
  bootstrap Fixtures.remote true
    {| AZURE_AI_PROJECT_URL := Some "https://project.example";
       AZURE_Params_AGENT_ID := Some "p"; AZURE_Summary_AGENT_ID := None;
       PORT := None |}
    Service.initial =
  (Throw (JsError "Missing env: AZURE_AI_PROJECT_URL or agent IDs"), Service.initial) /\
  bootstrap Fixtures.unknown false Fixtures.env Service.initial =
  (Throw (Rejection "no agent s"),
   {| calls := noCalls; agentReads := 2; threadCreates := 0; lists := 0;
      ctx := ctx Service.initial |}).
Proof.
  split.
  - apply (proj1 (ServerFacts.bootstrap_failures Fixtures.remote true
                    {| AZURE_AI_PROJECT_URL := Some "https://project.example";
                       AZURE_Params_AGENT_ID := Some "p";
                       AZURE_Summary_AGENT_ID := None;
                       PORT := None |} Service.initial)).
    right. right. reflexivity.
  - destruct (proj2 (ServerFacts.bootstrap_failures Fixtures.unknown false
                       Fixtures.env Service.initial))
      as (_ & _ & H); [discriminate|discriminate|discriminate|].
    apply (H "no agent p" "no agent s"); reflexivity.
Defined.

Example bootstrap_warm :
  bootstrap Fixtures.remote true Fixtures.env Service.initial =
  (Return tt, Fixtures.warm).
Proof. reflexivity. Qed.

(** The same rejections with the call for the parameter agent the first
    to fail. *)
Example bootstrap_param_first :
  fst (bootstrap Fixtures.unknown true Fixtures.env Service.initial) =
  Throw (Rejection "no agent p").
Proof. reflexivity. Qed.

(** The start-up on the default port, and on a port [app.listen] throws
    on: the server has been made ready, and the process exits. *)
Example main_listens :
  main Fixtures.remote true Fixtures.defaultPortOnly Fixtures.env Service.initial =
  (Return Listening, Fixtures.warm).
Proof. reflexivity. Qed.

Example main_bad_port :
  main Fixtures.remote true Fixtures.defaultPortOnly
    {| AZURE_AI_PROJECT_URL := Some "https://project.example";
       AZURE_Params_AGENT_ID := Some "p"; AZURE_Summary_AGENT_ID := Some "s";
       PORT := Some "70000" |}
    Service.initial =
  (Return (Exited 1), Fixtures.warm).
Proof. reflexivity. Qed.

Example main_unknown_agents :
  main Fixtures.unknown true Fixtures.defaultPortOnly Fixtures.env Service.initial =
  (Return (Exited 1),
   {| calls := noCalls; agentReads := 2; threadCreates := 0; lists := 0;
      ctx := ctx Service.initial |}).
Proof. reflexivity. Qed.

(** A message on an existing thread, to the param agent. *)
Lemma sendHandler_relays_witness :
  sendHandler (Doubles.sleeping 1000) Fixtures.remote Samples.noDateString 2
    Fixtures.onThread Fixtures.warm =
  (Return {| statusCode := 200; payload := SentPayload "param" (VString "thread_1") |},
   {| calls := {| nows := 3; appends := 1; creates := 1; gets := 3; sleeps := 2 |};
      agentReads := 2; threadCreates := 0; lists := 0; ctx := ctx Fixtures.warm |}).
Proof.
  apply (ServerFacts.sendHandler_relays (Doubles.sleeping 1000) Fixtures.remote
           Samples.noDateString 2 Fixtures.onThread Fixtures.warm
           {| agentId := "asst_p" |}
           (Return {| Agent.runId := "run_1"; Agent.resultStatus := "completed" |})
           {| nows := 3; appends := 1; creates := 1; gets := 3; sleeps := 2 |}).
  - reflexivity.
  - left. reflexivity.
  - discriminate.
  - reflexivity.
  - reflexivity.
  - reflexivity.
Defined.

(** A message without a thread, to the summary agent. *)
Lemma sendHandler_new_thread_witness :
  sendHandler (Doubles.sleeping 1000) Fixtures.remote Samples.noDateString 2
    Fixtures.noThread Fixtures.warm =
  (Return {| statusCode := 200; payload := SentPayload "summary" (VString "thread_new") |},
   {| calls := {| nows := 3; appends := 1; creates := 1; gets := 3; sleeps := 2 |};
      agentReads := 2; threadCreates := 1; lists := 0; ctx := ctx Fixtures.warm |}).
Proof.
  apply (proj2 (ServerFacts.sendHandler_new_thread (Doubles.sleeping 1000)
                  Fixtures.remote Samples.noDateString 2 Fixtures.noThread
                  Fixtures.warm {| agentId := "asst_s" |} eq_refl
                  (or_intror eq_refl) ltac:(discriminate) eq_refl eq_refl)
           "thread_new"
           (Return {| Agent.runId := "run_1"; Agent.resultStatus := "completed" |})
           {| nows := 3; appends := 1; creates := 1; gets := 3; sleeps := 2 |});
    reflexivity.
Defined.

End ServerExamples.

(** ** The search-context parameters *)

Module ParamsFacts.
Import Js Params.

Lemma eachItem_map items : forall acc,
  eachItem items acc = (acc ++ map pick items)%list.
Proof.
  induction items as [|item rest IH]; intros acc; simpl.
  - now rewrite app_nil_r.
  - rewrite IH, <- app_assoc. reflexivity.
Qed.

Lemma eachGroup_iterable groups : forall acc n,
  Forall (fun group => is_Some (searchContextGroupList group)) groups ->
  eachGroup groups acc n = (Return (acc ++ map pick (Notions.itemsOf groups))%list, n).
Proof.
  induction groups as [|group rest IH]; intros acc n H; simpl.
  - now rewrite app_nil_r.
  - apply Forall_cons in H. destruct H as [[items Hg] H].
    rewrite Hg, IH by exact H. unfold Notions.itemsOf. simpl. rewrite Hg. simpl.
    rewrite eachItem_map, map_app, <- app_assoc. reflexivity.
Qed.

Lemma eachGroup_broken groups : forall acc n,
  Exists (fun group => searchContextGroupList group = None) groups ->
  eachGroup groups acc n =
  (Throw (JsError "group.searchContextGroupList is not iterable"), n).
Proof.
  induction groups as [|group rest IH]; intros acc n H; simpl.
  - inversion H.
  - destruct (searchContextGroupList group) as [items|] eqn:Hg; [|reflexivity].
    apply IH. inversion H; subst; [congruence|assumption].
Qed.

Section Client.
Variable axios_get : nat -> string -> string -> Reply (option Data).

Local Abbreviation fetchParams := (fetchParams axios_get).

(** X29. On a response all of whose groups hold a list, [fetchParams]
    returns the items of all groups, group after group and in the order
    within each group, each cut down to its four fields [displayName],
    [parameter], [isPostBody] and [value]; it has made one request, to the
    search-context address, with the token behind [Bearer]. *)
Theorem fetchParams_flattens token n groups :
  axios_get n url (authorization token)
    = Resolved (Some {| contextGroups := Some groups |}) ->
  Forall (fun group => is_Some (searchContextGroupList group)) groups ->
  fetchParams token n = (Return (map pick (Notions.itemsOf groups)), S n) /\
  length (map pick (Notions.itemsOf groups)) =
    list_sum (map (fun group => length (default [] (searchContextGroupList group)))
                groups).
Proof.
  intros Hget Hgroups. split.
  - unfold Params.fetchParams, AQPget. unfold bind. rewrite Hget. simpl.
    now rewrite eachGroup_iterable.
  - rewrite length_map. unfold Notions.itemsOf. clear.
    induction groups as [|group rest IH]; simpl; [reflexivity|].
    rewrite length_app, IH. reflexivity.
Qed.

(** X30. [fetchParams] has no [catch]: a rejected request is passed on
    with its reason, a response without data or without [contextGroups]
    raises an error, and so does a response one of whose groups holds no
    list, whatever the groups in front of it hold.  Every time one request
    has been made and no items are returned. *)
Theorem fetchParams_failures token n :
  (forall reason,
     axios_get n url (authorization token) = Rejected reason ->
     fetchParams token n = (Throw (Rejection reason), S n)) /\
  (axios_get n url (authorization token) = Resolved None \/
   axios_get n url (authorization token) = Resolved (Some {| contextGroups := None |}) ->
   exists message, fetchParams token n = (Throw (JsError message), S n)) /\
  (forall groups,
     axios_get n url (authorization token)
       = Resolved (Some {| contextGroups := Some groups |}) ->
     Exists (fun group => searchContextGroupList group = None) groups ->
     exists message, fetchParams token n = (Throw (JsError message), S n)).
Proof.
  unfold Params.fetchParams, AQPget, bind. split; [|split].
  - intros reason ->. reflexivity.
  - intros [-> | ->]; eexists; reflexivity.
  - intros groups -> H. simpl. eexists. now apply eachGroup_broken.
Qed.
End Client.

End ParamsFacts.

Module ParamsExamples.
Import Js Params.

Lemma fetchParams_flattens_witness :
  fetchParams Fixtures.searchContext None 0%nat =
    (Return (map pick [Fixtures.item "a"; Fixtures.item "b"; Fixtures.item "c"]), 1%nat) /\
  length (map pick [Fixtures.item "a"; Fixtures.item "b"; Fixtures.item "c"]) =
    (1 + (2 + 0))%nat.
Proof.
  apply (ParamsFacts.fetchParams_flattens Fixtures.searchContext None 0%nat
           [{| searchContextGroupList := Some [Fixtures.item "a"] |};
            {| searchContextGroupList := Some [Fixtures.item "b"; Fixtures.item "c"] |}]).
  - reflexivity.
  - repeat constructor; eexists; reflexivity.
Defined.

(** The address does not answer. *)
Lemma fetchParams_failures_witness :
  fetchParams (fun _ _ _ => Rejected "ENOTFOUND") (Some "tok") 0%nat =
  (Throw (Rejection "ENOTFOUND"), 1%nat).
Proof.
  apply (proj1 (ParamsFacts.fetchParams_failures (fun _ _ _ => Rejected "ENOTFOUND")
                  (Some "tok") 0%nat)).
  reflexivity.
Defined.

(** A token of [null] goes out as the header [Bearer null]. *)
Example authorization_null : authorization None = "Bearer null".
Proof. reflexivity. Qed.

(** An item keeps its four fields and loses the others. *)
Example pick_item :
  pick (Fixtures.item "a") =
  {| displayName := VString "a"; parameter := VString "q";
     isPostBody := VBool false; value := VString "" |}.
Proof. reflexivity. Qed.

End ParamsExamples.
